(** * dkb_robo: the DKBRobo session facade

    A shallow embedding of [src/dkb_robo/dkb_robo.py] (the classes [DKBRobo]
    and [DKBRoboError]) together with the way [src/dkb_robo/cli.py] uses
    it: [_login] and the [try: with ...: / except DKBRoboError] blocks of
    the commands.

    The facade is a thin, dynamically typed pass-through to a [Wrapper]
    object of [dkb_robo.legacy] or of [dkb_robo.api].  Those two modules
    and [dkb_robo.utilities] are not among the sources: what their
    functions do is a parameter here (the classes [Utilities] and
    [Capability] below), and every call the facade makes to them is
    recorded in a call log, in program order.  A method of the facade is a
    function in a state-and-exception monad over the instance, the world
    outside and that log.

    Left out: the two [import] statements of [__enter__] (they only bind
    the name [Wrapper]) and the module-level call of [get_dateformat],
    whose results the class does not use.

    The commands of [cli.py] follow in the same style: a command runs on
    the instance it builds and on the list of the calls it makes to the
    libraries that write ([pprint], [click.echo], [tabulate], [csv],
    [json]); what those calls do is a parameter too (class [Console]).
    The option parsing of [click] is not embedded: a command takes its
    options as [click] hands them over. *)

From Stdlib Require Import String List ZArith Bool Lia.
Import ListNotations.
Open Scope string_scope.
Open Scope Z_scope.

Set Implicit Arguments.
Set Warnings "-register-all".

(** ** Python values *)

(** The facade never inspects most of the values it moves around, so one
    type of Python values is enough: the constants, strings, and the three
    containers that occur (tuples, lists, dicts as association lists in
    insertion order). *)
Inductive pyval : Type :=
| PyNone
| PyBool (b : bool)
| PyInt (z : Z)
| PyStr (s : string)
| PyTuple (items : list pyval)
| PyList (items : list pyval)
| PyDict (entries : list (pyval * pyval)).

(** Truth value of [if v:]. *)
Definition py_truthy (v : pyval) : bool :=
  match v with
  | PyNone => false
  | PyBool b => b
  | PyInt z => negb (z =? 0)
  | PyStr s => negb (String.eqb s "")
  | PyTuple l => negb (Nat.eqb (List.length l) 0)
  | PyList l => negb (Nat.eqb (List.length l) 0)
  | PyDict d => negb (Nat.eqb (List.length d) 0)
  end.

(** [v == 'lit'] for a string literal: only a [str] compares equal to a
    [str]. *)
Definition py_eq_str (v : pyval) (lit : string) : bool :=
  match v with
  | PyStr s => String.eqb s lit
  | _ => false
  end.

(** ** Exceptions *)

(** [DKBRoboError] is the one exception class [dkb_robo.py] declares.  A
    class of another module is named; it either derives from
    [DKBRoboError] or it does not. *)
Inductive exn_class : Type :=
| DKBRoboError
| DKBRoboSubclass (name : string)
| OtherError (name : string).

(** An exception instance: its class and [args[0]], the message the
    command line prints. *)
Record exn : Type := mk_exn { exn_cls : exn_class; exn_msg : string }.

Definition AttributeError (msg : string) : exn := mk_exn (OtherError "AttributeError") msg.
Definition TypeError (msg : string) : exn := mk_exn (OtherError "TypeError") msg.
Definition ValueError (msg : string) : exn := mk_exn (OtherError "ValueError") msg.

(** What [except dkb_robo.DKBRoboError] of [cli.py] catches. *)
Definition is_DKBRoboError (e : exn) : bool :=
  match exn_cls e with
  | DKBRoboError => true
  | DKBRoboSubclass _ => true
  | OtherError _ => false
  end.

Inductive outcome (A : Type) : Type :=
| Return (a : A)
| Raise (e : exn).
Arguments Return {A} a.
Arguments Raise {A} e.

(** [len(v)]. *)
Definition py_len (v : pyval) : outcome pyval :=
  match v with
  | PyStr s => Return (PyInt (Z.of_nat (String.length s)))
  | PyTuple l => Return (PyInt (Z.of_nat (List.length l)))
  | PyList l => Return (PyInt (Z.of_nat (List.length l)))
  | PyDict d => Return (PyInt (Z.of_nat (List.length d)))
  | PyNone | PyBool _ | PyInt _ => Raise (TypeError "object has no len()")
  end.

Fixpoint chars (s : string) : list pyval :=
  match s with
  | EmptyString => []
  | String c r => PyStr (String c EmptyString) :: chars r
  end.

(** The items iterating over [v] yields, when [v] is iterable. *)
Definition py_iter (v : pyval) : option (list pyval) :=
  match v with
  | PyTuple l => Some l
  | PyList l => Some l
  | PyDict d => Some (List.map fst d)
  | PyStr s => Some (chars s)
  | PyNone | PyBool _ | PyInt _ => None
  end.

(** [(a, b) = v]: the right-hand side is unpacked completely before the
    first target is assigned. *)
Definition unpack2 (v : pyval) : outcome (pyval * pyval) :=
  match py_iter v with
  | None => Raise (TypeError "cannot unpack non-iterable object")
  | Some [a; b] => Return (a, b)
  | Some (_ :: _ :: _ :: _) => Raise (ValueError "too many values to unpack (expected 2)")
  | Some _ => Raise (ValueError "not enough values to unpack (expected 2)")
  end.

(** ** The collaborators of the facade *)

(** [dkb_robo.utilities], as far as [dkb_robo.py] uses it: [logger_setup]
    builds the logger, [validate_dates] is the date validator.  The
    validator is a function of its arguments; what it returns is unpacked
    by the facade as a pair.  [Logger] is the type of logger objects. *)
Class Utilities (Logger : Type) : Type := {
  logger_setup : pyval -> Logger;
  validate_dates : option Logger -> pyval -> pyval -> Z -> pyval -> outcome pyval
}.

(** The two [Wrapper] classes, by the keyword arguments [__enter__] passes
    to each constructor. *)
Inductive Wrapper (Logger : Type) : Type :=
| LegacyWrapper (dkb_user dkb_password tan_insert proxies : pyval) (logger : option Logger)
| ApiWrapper (dkb_user dkb_password proxies mfa_device : pyval) (logger : option Logger).
Arguments LegacyWrapper {Logger} dkb_user dkb_password tan_insert proxies logger.
Arguments ApiWrapper {Logger} dkb_user dkb_password proxies mfa_device logger.

Inductive variant : Type := Legacy | Api.

Definition variant_of {Logger : Type} (w : Wrapper Logger) : variant :=
  match w with
  | LegacyWrapper _ _ _ _ _ => Legacy
  | ApiWrapper _ _ _ _ _ => Api
  end.

(** The methods of a wrapper the facade calls, with their arguments;
    [M_init] is the constructor call [Wrapper(...)]. *)
Inductive method : Type :=
| M_init
| M_login
| M_logout
| M_get_credit_limits
| M_get_exemption_order
| M_get_points
| M_get_standing_orders (uid : pyval)
| M_get_transactions (transaction_url atype date_from date_to transaction_type : pyval)
| M_scan_postbox (path download_all archive prepend_date : pyval).

(** The capability interface: a call of a wrapper method runs against the
    state of everything outside the facade (the portal, the network, the
    wrapper's own session), of type [World], and returns or raises. *)
Class Capability (Logger World : Type) : Type := {
  invoke : Wrapper Logger -> method -> World -> outcome pyval * World
}.

(** The call log. *)
Inductive event (Logger : Type) : Type :=
| EvLoggerSetup (debug : pyval)
| EvDebug (lg : Logger) (fmt : string) (args : list pyval)
| EvValidateDates (lg : option Logger) (date_from date_to : pyval) (min_year : Z)
    (legacy_login : pyval)
| EvCall (w : Wrapper Logger) (m : method).
Arguments EvLoggerSetup {Logger} debug.
Arguments EvDebug {Logger} lg fmt args.
Arguments EvValidateDates {Logger} lg date_from date_to min_year legacy_login.
Arguments EvCall {Logger} w m.

Definition is_wrapper_call {Logger : Type} (e : event Logger) : bool :=
  match e with
  | EvCall _ _ => true
  | _ => false
  end.

(** The calls to a wrapper in a log. *)
Definition wrapper_calls {Logger : Type} (l : list (event Logger)) : list (event Logger) :=
  List.filter is_wrapper_call l.

Definition is_logout_of {Logger : Type} (e : event Logger) : bool :=
  match e with
  | EvCall _ M_logout => true
  | _ => false
  end.

(** ** The instance *)

Section Facade.

Context {Logger World : Type} {Util : Utilities Logger} {Cap : Capability Logger World}.
Local Abbreviation Wrapper := (Wrapper Logger).
Local Abbreviation event := (event Logger).

(** The attributes of a [DKBRobo] instance. *)
Record DKBRobo : Type := mk_DKBRobo {
  legacy_login : pyval;
  dkb_user : pyval;
  dkb_password : pyval;
  proxies : pyval;
  last_login : pyval;
  mfa_device : pyval;
  account_dic : pyval;
  tan_insert : pyval;
  logger : option Logger;
  wrapper : option Wrapper
}.

(** The class-level defaults. *)
Definition DKBRobo_class : DKBRobo :=
  {| legacy_login := PyBool false;
     dkb_user := PyNone;
     dkb_password := PyNone;
     proxies := PyDict [];
     last_login := PyNone;
     mfa_device := PyInt 0;
     account_dic := PyDict [];
     tan_insert := PyBool false;
     logger := None;
     wrapper := None |}.

Definition set_legacy_login (v : pyval) (o : DKBRobo) : DKBRobo :=
  mk_DKBRobo v (dkb_user o) (dkb_password o) (proxies o) (last_login o)
             (mfa_device o) (account_dic o) (tan_insert o) (logger o) (wrapper o).
Definition set_dkb_user (v : pyval) (o : DKBRobo) : DKBRobo :=
  mk_DKBRobo (legacy_login o) v (dkb_password o) (proxies o) (last_login o)
             (mfa_device o) (account_dic o) (tan_insert o) (logger o) (wrapper o).
Definition set_dkb_password (v : pyval) (o : DKBRobo) : DKBRobo :=
  mk_DKBRobo (legacy_login o) (dkb_user o) v (proxies o) (last_login o)
             (mfa_device o) (account_dic o) (tan_insert o) (logger o) (wrapper o).
Definition set_last_login (v : pyval) (o : DKBRobo) : DKBRobo :=
  mk_DKBRobo (legacy_login o) (dkb_user o) (dkb_password o) (proxies o) v
             (mfa_device o) (account_dic o) (tan_insert o) (logger o) (wrapper o).
Definition set_mfa_device (v : pyval) (o : DKBRobo) : DKBRobo :=
  mk_DKBRobo (legacy_login o) (dkb_user o) (dkb_password o) (proxies o) (last_login o)
             v (account_dic o) (tan_insert o) (logger o) (wrapper o).
Definition set_account_dic (v : pyval) (o : DKBRobo) : DKBRobo :=
  mk_DKBRobo (legacy_login o) (dkb_user o) (dkb_password o) (proxies o) (last_login o)
             (mfa_device o) v (tan_insert o) (logger o) (wrapper o).
Definition set_tan_insert (v : pyval) (o : DKBRobo) : DKBRobo :=
  mk_DKBRobo (legacy_login o) (dkb_user o) (dkb_password o) (proxies o) (last_login o)
             (mfa_device o) (account_dic o) v (logger o) (wrapper o).
Definition set_logger (v : option Logger) (o : DKBRobo) : DKBRobo :=
  mk_DKBRobo (legacy_login o) (dkb_user o) (dkb_password o) (proxies o) (last_login o)
             (mfa_device o) (account_dic o) (tan_insert o) v (wrapper o).
Definition set_wrapper (v : option Wrapper) (o : DKBRobo) : DKBRobo :=
  mk_DKBRobo (legacy_login o) (dkb_user o) (dkb_password o) (proxies o) (last_login o)
             (mfa_device o) (account_dic o) (tan_insert o) (logger o) v.

(** ** Running a method *)

(** A method runs on the instance, the world outside and the call log. *)
Record state : Type := mk_state {
  self : DKBRobo;
  portal : World;
  calls : list event
}.

Definition M (A : Type) : Type := state -> outcome A * state.

Definition ret {A} (a : A) : M A := fun s => (Return a, s).

Definition raise {A} (e : exn) : M A := fun s => (Raise e, s).

Definition bind {A B} (m : M A) (k : A -> M B) : M B :=
  fun s =>
    match m s with
    | (Return a, s') => k a s'
    | (Raise e, s') => (Raise e, s')
    end.

Definition lift {A} (o : outcome A) : M A := fun s => (o, s).

(** [self.f] *)
Definition attr {A} (f : DKBRobo -> A) : M A := fun s => (Return (f (self s)), s).

(** [self.f = v] *)
Definition assign (upd : DKBRobo -> DKBRobo) : M unit :=
  fun s => (Return tt, mk_state (upd (self s)) (portal s) (calls s)).

Definition emit (e : event) : M unit :=
  fun s => (Return tt, mk_state (self s) (portal s) (calls s ++ [e])).

(** A call of method [m] of wrapper [w]: logged, then run on the world. *)
Definition call (w : Wrapper) (m : method) : M pyval :=
  fun s =>
    let (r, p) := invoke w m (portal s) in
    (r, mk_state (self s) p (calls s ++ [EvCall w m])).

End Facade.

Arguments DKBRobo : clear implicits.
Arguments state : clear implicits.
Arguments M : clear implicits.

Declare Scope py_scope.
Delimit Scope py_scope with py.
Notation "x <- m ;; k" := (bind m (fun x => k))
  (at level 61, m at next level, right associativity) : py_scope.
Notation "' p <- m ;; k" := (bind m (fun p => k))
  (at level 61, p pattern, m at next level, right associativity) : py_scope.
Notation "m ;;; k" := (bind m (fun _ => k))
  (at level 61, right associativity) : py_scope.
Open Scope py_scope.

(** ** The methods of [DKBRobo] *)

Section Methods.

Context {Logger World : Type} {Util : Utilities Logger} {Cap : Capability Logger World}.
Local Abbreviation Wrapper := (Wrapper Logger).
Local Abbreviation event := (event Logger).
Local Abbreviation DKBRobo := (DKBRobo Logger).
Local Abbreviation state := (state Logger World).
Local Abbreviation M := (M Logger World).

(** [self.logger.<name>]: the class default of [logger] is [None]. *)
Definition logger_attr (name : string) : M Logger :=
  lg <- attr logger ;;
  match lg with
  | Some l => ret l
  | None => raise (AttributeError ("'NoneType' object has no attribute '" ++ name ++ "'"))
  end.

(** [self.wrapper.<name>]: the class default of [wrapper] is [None]. *)
Definition wrapper_attr (name : string) : M Wrapper :=
  w <- attr wrapper ;;
  match w with
  | Some w => ret w
  | None => raise (AttributeError ("'NoneType' object has no attribute '" ++ name ++ "'"))
  end.

(** [self.logger.debug(fmt, *args)] *)
Definition debug (fmt : string) (args : list pyval) : M unit :=
  lg <- logger_attr "debug" ;;
  emit (EvDebug lg fmt args).

(** [validate_dates(self.logger, date_from, date_to, min_year, legacy_login)],
    a call into [dkb_robo.utilities]. *)
Definition call_validate_dates (lg : option Logger) (date_from date_to : pyval)
    (min_year : Z) (legacy : pyval) : M pyval :=
  emit (EvValidateDates lg date_from date_to min_year legacy) ;;;
  lift (validate_dates lg date_from date_to min_year legacy).

(** [__init__(self, dkb_user=None, dkb_password=None, tan_insert=False,
    legacy_login=False, debug=False, mfa_device=None)] *)
Definition __init__ (dkb_user' dkb_password' tan_insert' legacy_login' debug' mfa_device' : pyval)
    : M unit :=
  assign (set_dkb_user dkb_user') ;;;
  assign (set_dkb_password dkb_password') ;;;
  assign (set_tan_insert tan_insert') ;;;
  assign (set_legacy_login legacy_login') ;;;
  emit (EvLoggerSetup debug') ;;;
  assign (set_logger (Some (logger_setup debug'))) ;;;
  assign (set_mfa_device mfa_device').

(** [__enter__(self)]; the value returned is [self], which stays in the
    state. *)
Definition __enter__ : M unit :=
  (* tan usage requires legacy login *)
  t <- attr tan_insert ;;
  (if py_truthy t then assign (set_legacy_login (PyBool true)) else ret tt) ;;;
  d <- attr mfa_device ;;
  (if py_eq_str d "m" then assign (set_mfa_device (PyInt 1)) else ret tt) ;;;
  l <- attr legacy_login ;;
  (if py_truthy l then
     u <- attr dkb_user ;;
     p <- attr dkb_password ;;
     t <- attr tan_insert ;;
     x <- attr proxies ;;
     lg <- attr logger ;;
     let w := LegacyWrapper u p t x lg in
     call w M_init ;;;
     assign (set_wrapper (Some w))
   else
     u <- attr dkb_user ;;
     p <- attr dkb_password ;;
     x <- attr proxies ;;
     d <- attr mfa_device ;;
     lg <- attr logger ;;
     let w := ApiWrapper u p x d lg in
     call w M_init ;;;
     assign (set_wrapper (Some w))) ;;;
  (* login and get the account overview *)
  w <- wrapper_attr "login" ;;
  r <- call w M_login ;;
  ' (a, ll) <- lift (unpack2 r) ;;
  assign (set_account_dic a) ;;;
  assign (set_last_login ll).

(** [__exit__(self, *args)]: the arguments are ignored, the result is
    [None]. *)
Definition __exit__ (args : list pyval) : M pyval :=
  w <- wrapper_attr "logout" ;;
  call w M_logout ;;;
  ret PyNone.

Definition get_credit_limits : M pyval :=
  debug "DKBRobo.get_credit_limits()\n" [] ;;;
  w <- wrapper_attr "get_credit_limits" ;;
  call w M_get_credit_limits.

Definition get_exemption_order : M pyval :=
  debug "DKBRobo.get_exemption_order()\n" [] ;;;
  w <- wrapper_attr "get_exemption_order" ;;
  call w M_get_exemption_order.

Definition get_points : M pyval :=
  debug "DKBRobo.get_points()\n" [] ;;;
  w <- wrapper_attr "get_points" ;;
  call w M_get_points.

Definition get_standing_orders (uid : pyval) : M pyval :=
  debug "DKBRobo.get_standing_orders()\n" [] ;;;
  w <- wrapper_attr "get_standing_orders" ;;
  call w (M_get_standing_orders uid).

Definition get_transactions (transaction_url atype date_from date_to transaction_type : pyval)
    : M pyval :=
  debug "DKBRobo.get_transactions(%s/%s: %s/%s)\n" [transaction_url; atype; date_from; date_to] ;;;
  lg <- attr logger ;;
  l <- attr legacy_login ;;
  v <- call_validate_dates lg date_from date_to 3 l ;;
  ' (date_from, date_to) <- lift (unpack2 v) ;;
  w <- wrapper_attr "get_transactions" ;;
  transaction_list <- call w (M_get_transactions transaction_url atype date_from date_to transaction_type) ;;
  lg <- logger_attr "debug" ;;
  n <- lift (py_len transaction_list) ;;
  emit (EvDebug lg "DKBRobo.get_transactions(): %s transactions returned\n" [n]) ;;;
  ret transaction_list.

Definition scan_postbox (path download_all archive prepend_date : pyval) : M pyval :=
  debug "DKBRobo.scan_postbox()\n" [] ;;;
  w <- wrapper_attr "scan_postbox" ;;
  call w (M_scan_postbox path download_all archive prepend_date).

End Methods.

(** ** Callers *)

Section Callers.

Context {Logger World : Type} {Util : Utilities Logger} {Cap : Capability Logger World}.
Local Abbreviation Wrapper := (Wrapper Logger).
Local Abbreviation event := (event Logger).
Local Abbreviation DKBRobo := (DKBRobo Logger).
Local Abbreviation state := (state Logger World).
Local Abbreviation M := (M Logger World).

(** [DKBRobo(...)]: a new instance starts from the class defaults and runs
    [__init__]; [p] is the world it is created in. *)
Definition DKBRobo_new (dkb_user' dkb_password' tan_insert' legacy_login' debug' mfa_device' : pyval)
    (p : World) : state :=
  snd (__init__ dkb_user' dkb_password' tan_insert' legacy_login' debug' mfa_device'
         (mk_state DKBRobo_class p [])).

(** [_login(ctx)] of [cli.py]: four positional arguments, so the debug
    option lands in the parameter [legacy_login]. *)
Definition _login (username password use_tan debug' : pyval) (p : World) : state :=
  DKBRobo_new username password use_tan debug' (PyBool false) PyNone p.

(** The read operations of the facade. *)
Inductive read_op : Type :=
| Get_credit_limits
| Get_exemption_order
| Get_points
| Get_standing_orders (uid : pyval)
| Get_transactions (transaction_url atype date_from date_to transaction_type : pyval)
| Scan_postbox (path download_all archive prepend_date : pyval).

Definition run_read (op : read_op) : M pyval :=
  match op with
  | Get_credit_limits => get_credit_limits
  | Get_exemption_order => get_exemption_order
  | Get_points => get_points
  | Get_standing_orders uid => get_standing_orders uid
  | Get_transactions u a f t ty => get_transactions u a f t ty
  | Scan_postbox p d a pd => scan_postbox p d a pd
  end.

(** The code of a caller inside the scope, as in the commands of [cli.py]:
    it may look at the attributes of the instance, call read operations
    and go on with what they return or raise (a caller may catch), end, or
    raise an error of its own.  It does not assign to the instance and has
    no other access to the wrapper. *)
Inductive client : Type :=
| Finish
| Throw (e : exn)
| Look (k : DKBRobo -> client)
| Read (op : read_op) (k : outcome pyval -> client).

Fixpoint run_client (c : client) : M unit :=
  match c with
  | Finish => ret tt
  | Throw e => raise e
  | Look k => fun s => run_client (k (self s)) s
  | Read op k => fun s => let (r, s') := run_read op s in run_client (k r) s'
  end.

(** A caller that does not catch: an error of a read ends the body. *)
Definition uncaught (k : pyval -> client) (r : outcome pyval) : client :=
  match r with
  | Return v => k v
  | Raise e => Throw e
  end.

(** The triple [__exit__] receives: [None] three times on a normal exit,
    the exception otherwise (its class and message; no traceback). *)
Definition exc_info (r : outcome unit) : list pyval :=
  match r with
  | Return _ => [PyNone; PyNone; PyNone]
  | Raise e =>
      [PyStr match exn_cls e with
             | DKBRoboError => "DKBRoboError"
             | DKBRoboSubclass n => n
             | OtherError n => n
             end; PyStr (exn_msg e); PyNone]
  end.

(** [with <instance> as dkb: body], the statement every command of
    [cli.py] is built on.  An error of [__enter__] leaves the statement at
    once; otherwise [__exit__] runs after the body, an error it raises
    replaces the outcome of the body, and an error of the body is
    re-raised unless [__exit__] returned a true value. *)
Definition with_ (body : M unit) : M unit :=
  fun s =>
    match __enter__ s with
    | (Raise e, s1) => (Raise e, s1)
    | (Return _, s1) =>
        let (r, s2) := body s1 in
        match __exit__ (exc_info r) s2 with
        | (Raise e', s3) => (Raise e', s3)
        | (Return x, s3) =>
            match r with
            | Return _ => (Return tt, s3)
            | Raise e => if py_truthy x then (Return tt, s3) else (Raise e, s3)
            end
        end
    end.

(** A command of [cli.py]: [try: with ...: body / except
    dkb_robo.DKBRoboError as _err: click.echo(_err.args[0], err=True)].
    The result is what was written to the error stream, if anything. *)
Definition command (body : M unit) : M (option string) :=
  fun s =>
    match with_ body s with
    | (Return _, s') => (Return None, s')
    | (Raise e, s') =>
        if is_DKBRoboError e then (Return (Some (exn_msg e)), s') else (Raise e, s')
    end.

(** Any use of an instance from outside, step by step: errors of a step
    are the caller's to handle, the instance lives on. *)
Inductive facade_op : Type :=
| Enter
| Exit (args : list pyval)
| Op (op : read_op).

Definition run_op (o : facade_op) (s : state) : state :=
  match o with
  | Enter => snd (__enter__ s)
  | Exit args => snd (__exit__ args s)
  | Op op => snd (run_read op s)
  end.

Definition run_ops (l : list facade_op) (s : state) : state :=
  List.fold_left (fun s o => run_op o s) l s.

(** The events a run added to the log. *)
Definition new_calls (s s' : state) : list event :=
  List.skipn (List.length (calls s)) (calls s').

(** The variant the configuration of an instance asks for. *)
Definition configured_variant (o : DKBRobo) : variant :=
  if py_truthy (tan_insert o) || py_truthy (legacy_login o) then Legacy else Api.

End Callers.

Arguments client : clear implicits.

(** ** Notions the properties are stated with *)

Section Notions.

Context {Logger World : Type} {Util : Utilities Logger} {Cap : Capability Logger World}.
Local Abbreviation Wrapper := (Wrapper Logger).
Local Abbreviation event := (event Logger).
Local Abbreviation DKBRobo := (DKBRobo Logger).
Local Abbreviation state := (state Logger World).
Local Abbreviation M := (M Logger World).
Local Abbreviation client := (client Logger).

(** The instance after the first two statements of [__enter__]. *)
Definition flags_settled (o : DKBRobo) : DKBRobo :=
  let o1 := if py_truthy (tan_insert o) then set_legacy_login (PyBool true) o else o in
  if py_eq_str (mfa_device o1) "m" then set_mfa_device (PyInt 1) o1 else o1.

(** The wrapper the third statement builds from it. *)
Definition built_wrapper (o : DKBRobo) : Wrapper :=
  if py_truthy (legacy_login o)
  then LegacyWrapper (dkb_user o) (dkb_password o) (tan_insert o) (proxies o) (logger o)
  else ApiWrapper (dkb_user o) (dkb_password o) (proxies o) (mfa_device o) (logger o).

Definition no_attribute (name : string) : exn :=
  AttributeError ("'NoneType' object has no attribute '" ++ name ++ "'").

(** A read other than [get_transactions]: one debug line, one call. *)
Definition plain_read (fmt name : string) (m : method) (s : state) : outcome pyval * state :=
  match logger (self s) with
  | None => (Raise (no_attribute "debug"), s)
  | Some lg =>
      match wrapper (self s) with
      | None =>
          (Raise (no_attribute name),
           mk_state (self s) (portal s) (calls s ++ [EvDebug lg fmt []]))
      | Some w =>
          (fst (invoke w m (portal s)),
           mk_state (self s) (snd (invoke w m (portal s)))
                    (calls s ++ [EvDebug lg fmt []; EvCall w m]))
      end
  end.

(** The validator's answer, unpacked as [get_transactions] unpacks it. *)
Definition validated_range (lg : option Logger) (date_from date_to : pyval) (min_year : Z)
    (legacy : pyval) : outcome (pyval * pyval) :=
  match validate_dates lg date_from date_to min_year legacy with
  | Raise e => Raise e
  | Return v => unpack2 v
  end.

(** The methods a read operation may call. *)
Definition is_read_method (m : method) : bool :=
  match m with
  | M_init | M_login | M_logout => false
  | _ => true
  end.

Definition is_enter (o : facade_op) : bool :=
  match o with
  | Enter => true
  | _ => false
  end.

(** The span limits the validator was called with, in a log. *)
Definition validator_spans (l : list event) : list Z :=
  List.flat_map
    (fun ev => match ev with
               | EvValidateDates _ _ _ y _ => [y]
               | _ => []
               end) l.

End Notions.

(** ** A date validator and a portal to run the facade against *)

Module Demo.

Import Ascii.

Definition digit (c : ascii) : option Z :=
  let n := Z.of_N (N_of_ascii c) in
  if (48 <=? n) && (n <=? 57) then Some (n - 48) else None.

(** The value of a string of decimal digits. *)
Fixpoint number (s : string) (acc : Z) : option Z :=
  match s with
  | EmptyString => Some acc
  | String c r =>
      match digit c with
      | Some d => number r (10 * acc + d)
      | None => None
      end
  end.

(** The fields of a string, separated by dots; [cur] is the field being
    read, last character first. *)
Fixpoint fields (s : string) (cur : string) : list string :=
  match s with
  | EmptyString => [cur]
  | String c r =>
      if Ascii.eqb c "." then cur :: fields r EmptyString
      else fields r (String c cur)
  end.

Fixpoint reverse (s : string) (acc : string) : string :=
  match s with
  | EmptyString => acc
  | String c r => reverse r (String c acc)
  end.

(** A field of exactly [width] digits. *)
Definition field (width : nat) (f : string) : option Z :=
  if Nat.eqb (String.length f) width then number (reverse f EmptyString) 0 else None.

Definition leap_year (y : Z) : bool :=
  ((y mod 4 =? 0) && negb (y mod 100 =? 0)) || (y mod 400 =? 0).

Definition days_in_month (y m : Z) : Z :=
  if m =? 2 then (if leap_year y then 29 else 28)
  else if (m =? 4) || (m =? 6) || (m =? 9) || (m =? 11) then 30
  else 31.

(** A calendar date, year first. *)
Definition date : Type := (Z * Z * Z)%type.

Definition calendar_date (y m d : Z) : option date :=
  if (1 <=? m) && (m <=? 12) && (1 <=? d) && (d <=? days_in_month y m)
  then Some (y, m, d) else None.

(** [dd.mm.yyyy], the [DATE_FORMAT] of [cli.py]. *)
Definition parse_date (v : pyval) : option date :=
  match v with
  | PyStr s =>
      match fields s EmptyString with
      | [dd; mm; yyyy] =>
          match field 2 dd, field 2 mm, field 4 yyyy with
          | Some d, Some m, Some y => calendar_date y m d
          | _, _, _ => None
          end
      | _ => None
      end
  | _ => None
  end.

(** Dates compare as (year, month, day). *)
Definition date_key (d : date) : Z :=
  let '(y, m, dd) := d in y * 10000 + m * 100 + dd.

Definition add_years (n : Z) (d : date) : date :=
  let '(y, m, dd) := d in (y + n, m, dd).

Definition DateFormatError (msg : string) : exn := mk_exn (DKBRoboSubclass "DateFormatError") msg.
Definition DateRangeError (msg : string) : exn := mk_exn (DKBRoboSubclass "DateRangeError") msg.

(** Modelled from the spec: [validate_dates] of [dkb_robo.utilities], which
    is not among the sources.  Section 4.2: both dates are parsed under one
    fixed format ([DateFormatError] otherwise); [date_from > date_to] is a
    [DateRangeError]; so is a span of more than [max_span_years] calendar
    years; otherwise the pair is returned as it came. *)
Definition spec_validate_dates (lg : option bool) (date_from date_to : pyval)
    (max_span_years : Z) (legacy_flag : pyval) : outcome pyval :=
  match parse_date date_from, parse_date date_to with
  | Some f, Some t =>
      if date_key t <? date_key f then Raise (DateRangeError "date_from is after date_to")
      else if date_key (add_years max_span_years f) <? date_key t
           then Raise (DateRangeError "date range exceeds the maximum span")
           else Return (PyTuple [date_from; date_to])
  | _, _ => Raise (DateFormatError "date does not match dd.mm.yyyy")
  end.

(** The logger is its debug switch. *)
#[export] Instance utilities : Utilities bool :=
  {| logger_setup := py_truthy;
     validate_dates := spec_validate_dates |}.

(** A scripted portal: what the bank will answer, and whether a session is
    open. *)
Record portal_state : Type := mk_portal {
  network_up : bool;
  credentials_ok : bool;
  mfa_confirmed : bool;
  logout_works : bool;
  booked : list pyval;
  reserved : list pyval;
  session_open : bool
}.

Definition set_session (b : bool) (p : portal_state) : portal_state :=
  mk_portal (network_up p) (credentials_ok p) (mfa_confirmed p) (logout_works p)
            (booked p) (reserved p) b.

Definition ConnectionError : exn :=
  mk_exn (OtherError "requests.exceptions.ConnectionError") "portal unreachable".

Definition account (name iban : string) : pyval :=
  PyDict [(PyStr "name", PyStr name); (PyStr "account", PyStr iban);
          (PyStr "type", PyStr "account"); (PyStr "transactions", PyStr ("/tx/" ++ iban));
          (PyStr "details", PyStr ("/details/" ++ iban))].

Definition accounts : pyval :=
  PyDict [(PyInt 0, account "checking" "DE01"); (PyInt 1, account "savings" "DE02")].

Definition in_session (p : portal_state) (v : pyval) : outcome pyval * portal_state :=
  if negb (network_up p) then (Raise ConnectionError, p)
  else if session_open p then (Return v, p)
  else (Raise (mk_exn DKBRoboError "session expired"), p).

(** The two wrappers differ in the login only: the legacy one asks for the
    TAN confirmation. *)
Definition demo_invoke (w : Wrapper bool) (m : method) (p : portal_state)
    : outcome pyval * portal_state :=
  match m with
  | M_init => (Return PyNone, p)
  | M_login =>
      if negb (network_up p) then (Raise ConnectionError, p)
      else if negb (credentials_ok p) then (Raise (mk_exn DKBRoboError "Login failed"), p)
      else if match w with
              | LegacyWrapper _ _ t _ _ => py_truthy t && negb (mfa_confirmed p)
              | ApiWrapper _ _ _ _ _ => negb (mfa_confirmed p)
              end
           then (Raise (mk_exn DKBRoboError "Login failed: mfa did not get confirmed"), p)
           else (Return (PyTuple [accounts; PyStr "01.01.2024, 08:00"]), set_session true p)
  | M_logout =>
      if logout_works p then (Return PyNone, set_session false p)
      else (Raise ConnectionError, p)
  | M_get_credit_limits => in_session p (PyDict [(PyStr "DE01", PyInt 1000)])
  | M_get_exemption_order => in_session p (PyDict [])
  | M_get_points => in_session p (PyDict [(PyStr "DKB-Punkte", PyInt 42)])
  | M_get_standing_orders _ => in_session p (PyList [])
  | M_get_transactions _ _ _ _ ty =>
      in_session p (PyList (if py_eq_str ty "booked" then booked p else reserved p))
  | M_scan_postbox _ _ _ _ => in_session p (PyDict [])
  end.

#[export] Instance capability : Capability bool portal_state :=
  {| invoke := demo_invoke |}.

(** A portal on a good day, with five booked transactions and none
    reserved. *)
Definition tx (n : Z) : pyval :=
  PyDict [(PyStr "amount", PyInt n); (PyStr "text", PyStr "booking")].

Definition good_day : portal_state :=
  {| network_up := true; credentials_ok := true; mfa_confirmed := true;
     logout_works := true; booked := [tx 1; tx 2; tx 3; tx 4; tx 5];
     reserved := []; session_open := false |}.

Definition no_mfa : portal_state :=
  mk_portal true true false true [] [] false.

Definition network_down : portal_state :=
  mk_portal false true true true [] [] false.

Definition stuck_logout : portal_state :=
  mk_portal true true true false [] [] false.

(** Instances, as a caller would construct them. *)
Definition user : pyval := PyStr "alice".
Definition password : pyval := PyStr "secret".

(** [DKBRobo(user, password)] *)
Definition api_user (p : portal_state) : state bool portal_state :=
  DKBRobo_new user password (PyBool false) (PyBool false) (PyBool false) PyNone p.

(** [DKBRobo(user, password, tan_insert=True)] *)
Definition tan_user (p : portal_state) : state bool portal_state :=
  DKBRobo_new user password (PyBool true) (PyBool false) (PyBool false) PyNone p.

(** [DKBRobo(user, password, legacy_login=True)] *)
Definition legacy_user (p : portal_state) : state bool portal_state :=
  DKBRobo_new user password (PyBool false) (PyBool true) (PyBool false) PyNone p.

(** [DKBRobo(user, password, tan_insert=True, mfa_device='m')] *)
Definition tan_m_user (p : portal_state) : state bool portal_state :=
  DKBRobo_new user password (PyBool true) (PyBool false) (PyBool false) (PyStr "m") p.

(** The command line with [--debug] and without [--use-tan]. *)
Definition cli_debug_user (p : portal_state) : state bool portal_state :=
  _login user password (PyBool false) (PyBool true) p.

Definition api_wrapper : Wrapper bool :=
  ApiWrapper user password (PyDict []) PyNone (Some false).

Definition legacy_wrapper : Wrapper bool :=
  LegacyWrapper user password (PyBool false) (PyDict []) (Some false).

Definition tan_wrapper : Wrapper bool :=
  LegacyWrapper user password (PyBool true) (PyDict []) (Some false).

Definition mfa_failure : exn :=
  mk_exn DKBRoboError "Login failed: mfa did not get confirmed".

Definition session_expired : exn := mk_exn DKBRoboError "session expired".

(** Reads a caller may make. *)
Definition booked_2024 : read_op :=
  Get_transactions (PyStr "/tx/DE01") (PyStr "account") (PyStr "01.01.2024")
                   (PyStr "01.03.2024") (PyStr "booked").

Definition reserved_2024 : read_op :=
  Get_transactions (PyStr "/tx/DE01") (PyStr "account") (PyStr "01.01.2024")
                   (PyStr "01.03.2024") (PyStr "reserved").

Definition ten_years : read_op :=
  Get_transactions (PyStr "/tx/DE01") (PyStr "account") (PyStr "10.01.2020")
                   (PyStr "10.01.2030") (PyStr "booked").

(** A body that reads the booked transactions and then fails on its own. *)
Definition failing_body : client bool :=
  Read booked_2024 (uncaught (fun _ => Throw (mk_exn (OtherError "KeyError") "amount"))).

(** A body that reads the points and ends. *)
Definition quiet_body : client bool :=
  Read Get_points (uncaught (fun _ => Finish)).

End Demo.

(** * The command line, [src/dkb_robo/cli.py] *)

(** ** More of Python's values: subscripts and dict views *)

Definition KeyError (key : string) : exn := mk_exn (OtherError "KeyError") key.
Definition IndexError (msg : string) : exn := mk_exn (OtherError "IndexError") msg.

(** Whether a dict key is the string [key]. *)
Definition is_key (key : string) (entry : pyval * pyval) : bool :=
  py_eq_str (fst entry) key.

(** [v[key]] for a string [key]. *)
Definition py_getitem_str (v : pyval) (key : string) : outcome pyval :=
  match v with
  | PyDict d =>
      match List.find (is_key key) d with
      | Some (_, x) => Return x
      | None => Raise (KeyError key)
      end
  | PyList _ => Raise (TypeError "list indices must be integers or slices, not str")
  | PyTuple _ => Raise (TypeError "tuple indices must be integers or slices, not str")
  | PyStr _ => Raise (TypeError "string indices must be integers, not 'str'")
  | PyNone | PyBool _ | PyInt _ => Raise (TypeError "object is not subscriptable")
  end.

(** [del v[key]] for a string [key]: the value after the deletion.  The
    entries that stay keep their order. *)
Definition py_delitem_str (v : pyval) (key : string) : outcome pyval :=
  match v with
  | PyDict d =>
      if List.existsb (is_key key) d
      then Return (PyDict (List.filter (fun e => negb (is_key key e)) d))
      else Raise (KeyError key)
  | PyList _ => Raise (TypeError "list indices must be integers or slices, not str")
  | PyTuple _ | PyStr _ | PyNone | PyBool _ | PyInt _ =>
      Raise (TypeError "object does not support item deletion")
  end.

(** [v.items()], [v.values()] and [v.keys()]: methods of a dict only. *)
Definition py_items (v : pyval) : outcome (list (pyval * pyval)) :=
  match v with
  | PyDict d => Return d
  | _ => Raise (AttributeError "object has no attribute 'items'")
  end.

Definition py_values (v : pyval) : outcome (list pyval) :=
  match v with
  | PyDict d => Return (List.map snd d)
  | _ => Raise (AttributeError "object has no attribute 'values'")
  end.

Definition py_keys (v : pyval) : outcome (list pyval) :=
  match v with
  | PyDict d => Return (List.map fst d)
  | _ => Raise (AttributeError "object has no attribute 'keys'")
  end.

(** Whether a dict key equals the integer 0 ([False == 0] in Python). *)
Definition is_zero_key (entry : pyval * pyval) : bool :=
  match fst entry with
  | PyInt z => z =? 0
  | PyBool b => negb b
  | _ => false
  end.

(** [v[0]] *)
Definition py_getitem_0 (v : pyval) : outcome pyval :=
  match v with
  | PyList (x :: _) => Return x
  | PyList [] => Raise (IndexError "list index out of range")
  | PyTuple (x :: _) => Return x
  | PyTuple [] => Raise (IndexError "tuple index out of range")
  | PyStr (String c _) => Return (PyStr (String c EmptyString))
  | PyStr EmptyString => Raise (IndexError "string index out of range")
  | PyDict d =>
      match List.find is_zero_key d with
      | Some (_, x) => Return x
      | None => Raise (KeyError "0")
      end
  | PyNone | PyBool _ | PyInt _ => Raise (TypeError "object is not subscriptable")
  end.

(** ** Output *)

(** The calls a command makes to the libraries that write: [pprint],
    [click.echo] of a [tabulate] grid or of [json.dumps], the header and
    the rows of a [csv.DictWriter] on [sys.stdout], and [click.echo] to
    the error stream. *)
Inductive output : Type :=
| Pprint (data : pyval)
| EchoTable (data : pyval)
| CsvHeader (fieldnames : list pyval)
| CsvRows (data : pyval)
| EchoJson (data : pyval)
| EchoErr (msg : string).

(** What such a call does is the library's business; it returns or
    raises. *)
Class Console : Type := {
  library : output -> outcome unit
}.

(** The four formatters [_load_format] can return. *)
Inductive formatter : Type :=
| Fmt_pprint
| Fmt_table
| Fmt_csv
| Fmt_json.

(** [_load_format(output_format)] *)
Definition _load_format (output_format : string) : outcome formatter :=
  if String.eqb output_format "pprint" then Return Fmt_pprint
  else if String.eqb output_format "table" then Return Fmt_table
  else if String.eqb output_format "csv" then Return Fmt_csv
  else if String.eqb output_format "json" then Return Fmt_json
  else Raise (mk_exn (OtherError "Exception") ("Unknown format: " ++ output_format)).

(** [ctx.obj], as [main] fills it. *)
Record context : Type := mk_context {
  DEBUG : pyval;
  USE_TAN : pyval;
  USERNAME : pyval;
  PASSWORD : pyval;
  FORMAT : formatter
}.

(** [main(ctx, debug, use_tan, username, password, format)] *)
Definition main (debug' use_tan username password : pyval) (format : string)
    : outcome context :=
  match _load_format format with
  | Return f => Return (mk_context debug' use_tan username password f)
  | Raise e => Raise e
  end.

Section Cli.

Context {Logger World : Type} {Util : Utilities Logger} {Cap : Capability Logger World}
        {Con : Console}.
Local Abbreviation Wrapper := (Wrapper Logger).
Local Abbreviation event := (event Logger).
Local Abbreviation DKBRobo := (DKBRobo Logger).
Local Abbreviation state := (state Logger World).
Local Abbreviation M := (M Logger World).

(** A command runs on the instance it has built (with the world and the
    call log) and on the list of what it has written. *)
Record cli_state : Type := mk_cli {
  dkb : state;
  written : list output
}.

Definition C (A : Type) : Type := cli_state -> outcome A * cli_state.

Definition cret {A} (a : A) : C A := fun c => (Return a, c).

Definition craise {A} (e : exn) : C A := fun c => (Raise e, c).

Definition cbind {A B} (m : C A) (k : A -> C B) : C B :=
  fun c =>
    match m c with
    | (Return a, c') => k a c'
    | (Raise e, c') => (Raise e, c')
    end.

Definition clift {A} (o : outcome A) : C A := fun c => (o, c).

(** A method of the instance, called from the command. *)
Definition method_call {A} (m : M A) : C A :=
  fun c => let (r, s) := m (dkb c) in (r, mk_cli s (written c)).

(** A call to a writing library. *)
Definition perform (o : output) : C unit :=
  fun c => (library o, mk_cli (dkb c) (written c ++ [o])).

End Cli.

Arguments cli_state : clear implicits.
Arguments C : clear implicits.

Declare Scope cli_scope.
Notation "x <- m ;; k" := (cbind m (fun x => k))
  (at level 61, m at next level, right associativity) : cli_scope.
Notation "m ;;; k" := (cbind m (fun _ => k))
  (at level 61, right associativity) : cli_scope.

Section Commands.

Context {Logger World : Type} {Util : Utilities Logger} {Cap : Capability Logger World}
        {Con : Console}.
Local Abbreviation Wrapper := (Wrapper Logger).
Local Abbreviation event := (event Logger).
Local Abbreviation DKBRobo := (DKBRobo Logger).
Local Abbreviation state := (state Logger World).
Local Abbreviation M := (M Logger World).
Local Abbreviation cli_state := (cli_state Logger World).
Local Abbreviation C := (C Logger World).

Local Open Scope cli_scope.

(** The formatter [csv] of [_load_format]: nothing for data of length 0,
    else a header from the keys of the first record and then the rows. *)
Definition format_csv (data : pyval) : C unit :=
  n <- clift (py_len data) ;;
  match n with
  | PyInt 0 => cret tt
  | _ =>
      first <- clift (py_getitem_0 data) ;;
      fieldnames <- clift (py_keys first) ;;
      perform (CsvHeader fieldnames) ;;;
      perform (CsvRows data)
  end.

(** [ctx.obj["FORMAT"](data)] *)
Definition run_format (f : formatter) (data : pyval) : C unit :=
  match f with
  | Fmt_pprint => perform (Pprint data)
  | Fmt_table => perform (EchoTable data)
  | Fmt_csv => format_csv data
  | Fmt_json => perform (EchoJson data)
  end.

(** [with <instance> as dkb: body] for a body that also writes; the same
    statement as [with_]. *)
Definition cli_with (body : C unit) : C unit :=
  fun c =>
    match method_call __enter__ c with
    | (Raise e, c1) => (Raise e, c1)
    | (Return _, c1) =>
        let (r, c2) := body c1 in
        match method_call (__exit__ (exc_info r)) c2 with
        | (Raise e', c3) => (Raise e', c3)
        | (Return x, c3) =>
            match r with
            | Return _ => (Return tt, c3)
            | Raise e => if py_truthy x then (Return tt, c3) else (Raise e, c3)
            end
        end
    end.

(** The frame of every command: [try: with _login(ctx) as dkb: body /
    except dkb_robo.DKBRoboError as _err: click.echo(_err.args[0],
    err=True)], run in the world [p]. *)
Definition scoped (ctx : context) (body : C unit) (p : World) : outcome unit * cli_state :=
  let c0 := mk_cli (_login (USERNAME ctx) (PASSWORD ctx) (USE_TAN ctx) (DEBUG ctx) p) [] in
  match cli_with body c0 with
  | (Return _, c) => (Return tt, c)
  | (Raise e, c) =>
      if is_DKBRoboError e then perform (EchoErr (exn_msg e)) c else (Raise e, c)
  end.

(** The loop of [accounts] over the entries of the directory: [del
    value["details"]] and [del value["transactions"]] on each record in
    turn.  The records are the objects the directory holds, so the
    entries come back as the loop left them, also when it stops on an
    error. *)
Fixpoint strip_records (entries : list (pyval * pyval))
    : outcome unit * list (pyval * pyval) :=
  match entries with
  | [] => (Return tt, [])
  | (k, value) :: rest =>
      match py_delitem_str value "details" with
      | Raise e => (Raise e, (k, value) :: rest)
      | Return v1 =>
          match py_delitem_str v1 "transactions" with
          | Raise e => (Raise e, (k, v1) :: rest)
          | Return v2 =>
              let (r, rest') := strip_records rest in
              (r, (k, v2) :: rest')
          end
      end
  end.

(** The body of [accounts].  [accounts_dict] is the directory object of
    the instance and [value] the record objects in it, so the deletions
    happen inside the instance: the directory is written back here.  The
    records are taken to be distinct objects. *)
Definition accounts_body (ctx : context) : C unit :=
  accounts_dict <- method_call (attr account_dic) ;;
  entries <- clift (py_items accounts_dict) ;;
  method_call (assign (set_account_dic (PyDict (snd (strip_records entries))))) ;;;
  clift (fst (strip_records entries)) ;;;
  accounts_dict <- method_call (attr account_dic) ;;
  values <- clift (py_values accounts_dict) ;;
  run_format (FORMAT ctx) (PyList values).

Definition accounts (ctx : context) (p : World) : outcome unit * cli_state :=
  scoped ctx (accounts_body ctx) p.

(** [[acct for acct in accounts if acct[key] == wanted]] *)
Fixpoint filter_accounts (key wanted : string) (accts : list pyval) : outcome (list pyval) :=
  match accts with
  | [] => Return []
  | acct :: rest =>
      match py_getitem_str acct key with
      | Raise e => Raise e
      | Return v =>
          match filter_accounts key wanted rest with
          | Raise e => Raise e
          | Return l => Return (if py_eq_str v wanted then acct :: l else l)
          end
      end
  end.

(** [f"{name or account}"] where exactly one of the two is given. *)
Definition name_or_account (name account : option string) : string :=
  match name, account with
  | Some n, _ => if String.eqb n "" then
                   match account with Some a => a | None => "None" end
                 else n
  | None, Some a => a
  | None, None => "None"
  end.

Definition UsageError : exn :=
  mk_exn (OtherError "click.UsageError") "One of --name or --account must be provided.".

(** The body of [transactions], for the field [key] to compare and the
    value [wanted]; [date_from] and [date_to] are the two dates as
    [strftime(DATE_FORMAT)] has written them. *)
Definition transactions_body (ctx : context) (key wanted : string) (name account : option string)
    (transaction_type date_from date_to : pyval) : C unit :=
  accounts_dict <- method_call (attr account_dic) ;;
  values <- clift (py_values accounts_dict) ;;
  filtered_accounts <- clift (filter_accounts key wanted values) ;;
  match filtered_accounts with
  | [] =>
      perform (EchoErr ("No account found matching '" ++ name_or_account name account ++ "'"))
  | the_account :: _ =>
      transaction_url <- clift (py_getitem_str the_account "transactions") ;;
      atype <- clift (py_getitem_str the_account "type") ;;
      transactions_list <-
        method_call (get_transactions transaction_url atype date_from date_to transaction_type) ;;
      run_format (FORMAT ctx) transactions_list
  end.

(** [transactions(ctx, name, account, transaction_type, date_from,
    date_to)].  With both options or neither the [UsageError] is raised
    before the [try]: no instance is built, so the state that comes back
    is the class with its defaults in the untouched world. *)
Definition transactions (ctx : context) (name account : option string)
    (transaction_type date_from date_to : pyval) (p : World)
    : outcome unit * cli_state :=
  match name, account with
  | Some n, None =>
      scoped ctx (transactions_body ctx "name" n name account transaction_type
                    date_from date_to) p
  | None, Some a =>
      scoped ctx (transactions_body ctx "account" a name account transaction_type
                    date_from date_to) p
  | _, _ => (Raise UsageError, mk_cli (mk_state DKBRobo_class p []) [])
  end.

(** [last_login(ctx)] *)
Definition last_login_body (ctx : context) : C unit :=
  ll <- method_call (attr last_login) ;;
  run_format (FORMAT ctx) (PyList [PyDict [(PyStr "last_login", ll)]]).

Definition cli_last_login (ctx : context) (p : World) : outcome unit * cli_state :=
  scoped ctx (last_login_body ctx) p.

(** [[{"account": k, "limit": v} for k, v in limits.items()]] *)
Definition limit_rows (items : list (pyval * pyval)) : list pyval :=
  List.map (fun kv => PyDict [(PyStr "account", fst kv); (PyStr "limit", snd kv)]) items.

(** [credit_limits(ctx)] *)
Definition credit_limits_body (ctx : context) : C unit :=
  limits <- method_call get_credit_limits ;;
  items <- clift (py_items limits) ;;
  run_format (FORMAT ctx) (PyList (limit_rows items)).

Definition credit_limits (ctx : context) (p : World) : outcome unit * cli_state :=
  scoped ctx (credit_limits_body ctx) p.

(** [standing_orders(ctx)] *)
Definition standing_orders_body (ctx : context) : C unit :=
  orders <- method_call (get_standing_orders PyNone) ;;
  run_format (FORMAT ctx) orders.

Definition standing_orders (ctx : context) (p : World) : outcome unit * cli_state :=
  scoped ctx (standing_orders_body ctx) p.

End Commands.

(** ** Notions the further properties are stated with *)

Definition is_exit (o : facade_op) : bool :=
  match o with
  | Exit _ => true
  | _ => false
  end.

(** The wrapper method a read other than [get_transactions] stands for,
    with the arguments of the read. *)
Definition plain_method (op : read_op) : option method :=
  match op with
  | Get_credit_limits => Some M_get_credit_limits
  | Get_exemption_order => Some M_get_exemption_order
  | Get_points => Some M_get_points
  | Get_standing_orders uid => Some (M_get_standing_orders uid)
  | Get_transactions _ _ _ _ _ => None
  | Scan_postbox path download_all archive prepend_date =>
      Some (M_scan_postbox path download_all archive prepend_date)
  end.

(** Whether [v] is a dict with the string key [key]. *)
Definition has_key (key : string) (v : pyval) : bool :=
  match v with
  | PyDict d => List.existsb (is_key key) d
  | _ => false
  end.

(** A record [accounts] can strip: a dict with both keys. *)
Definition strippable (v : pyval) : bool :=
  has_key "details" v && has_key "transactions" v.

(** A record without the two keys, the other entries as they were. *)
Definition stripped (v : pyval) : pyval :=
  match v with
  | PyDict d =>
      PyDict (List.filter
                (fun e => negb (is_key "details" e) && negb (is_key "transactions" e)) d)
  | _ => v
  end.

(** Whether the field [key] of a record equals the string [wanted]. *)
Definition field_is (key wanted : string) (acct : pyval) : bool :=
  match py_getitem_str acct key with
  | Return v => py_eq_str v wanted
  | Raise _ => false
  end.

Section CommandNotions.

Context {Logger World : Type} {Util : Utilities Logger} {Cap : Capability Logger World}
        {Con : Console}.
Local Abbreviation cli_state := (cli_state Logger World).
Local Abbreviation C := (C Logger World).

(** The five commands of [cli.py] with their options. *)
Inductive cli_command : Type :=
| Accounts
| Transactions (name account : option string) (transaction_type date_from date_to : pyval)
| Last_login
| Credit_limits
| Standing_orders.

Definition run_command (ctx : context) (cmd : cli_command) (p : World)
    : outcome unit * cli_state :=
  match cmd with
  | Accounts => accounts ctx p
  | Transactions name account ty f t => transactions ctx name account ty f t p
  | Last_login => cli_last_login ctx p
  | Credit_limits => credit_limits ctx p
  | Standing_orders => standing_orders ctx p
  end.

(** The body a command runs in its scope; [transactions] has none when
    its two options are both given or both missing. *)
Definition command_body (ctx : context) (cmd : cli_command) : option (C unit) :=
  match cmd with
  | Accounts => Some (accounts_body ctx)
  | Transactions (Some n) None ty f t =>
      Some (transactions_body ctx "name" n (Some n) None ty f t)
  | Transactions None (Some a) ty f t =>
      Some (transactions_body ctx "account" a None (Some a) ty f t)
  | Transactions _ _ _ _ _ => None
  | Last_login => Some (last_login_body ctx)
  | Credit_limits => Some (credit_limits_body ctx)
  | Standing_orders => Some (standing_orders_body ctx)
  end.

(** A piece of a command that leaves the wrapper of the instance in place
    and calls nothing of it but read methods. *)
Definition reads_only {A : Type} (b : C A) : Prop :=
  forall c : cli_state,
    wrapper (self (dkb (snd (b c)))) = wrapper (self (dkb c)) /\
    exists l,
      calls (dkb (snd (b c))) = (calls (dkb c) ++ l)%list /\
      forall w m, In (EvCall w m) l -> is_read_method m = true.

End CommandNotions.

(** ** A console, and wrappers that answer as told *)

Module DemoCli.

(** A console on which every call goes through. *)
#[export] Instance console : Console := {| library := fun _ => Return tt |}.

(** A console that is gone: every call raises. *)
Definition BrokenPipeError : exn := mk_exn (OtherError "BrokenPipeError") "Broken pipe".

Definition closed_console : Console := {| library := fun _ => Raise BrokenPipeError |}.

(** Wrappers whose [login], [get_transactions] and [get_credit_limits]
    return what they are told; every other call returns [None]. *)
Definition told (login_result transactions_result limits_result : pyval)
    : Capability bool Demo.portal_state :=
  {| invoke := fun _ m p =>
       match m with
       | M_login => (Return login_result, p)
       | M_get_transactions _ _ _ _ _ => (Return transactions_result, p)
       | M_get_credit_limits => (Return limits_result, p)
       | _ => (Return PyNone, p)
       end |}.


(** A login that returns three items. *)
Definition three_items : Capability bool Demo.portal_state :=
  told (PyTuple [Demo.accounts; PyStr "01.01.2024, 08:00"; PyStr "extra"]) PyNone PyNone.

(** A login that works, and transactions that come back as [None]. *)
Definition no_transactions : Capability bool Demo.portal_state :=
  told (PyTuple [Demo.accounts; PyStr "01.01.2024, 08:00"]) PyNone PyNone.


(** Contexts as [main] builds them. *)
Definition plain_ctx (f : formatter) : context :=
  mk_context (PyBool false) (PyBool false) Demo.user Demo.password f.


Definition debug_ctx (f : formatter) : context :=
  mk_context (PyBool true) (PyBool false) Demo.user Demo.password f.

(** An entered API session on the scripted portal, the command state on
    it with nothing written yet, and the same session after it was left. *)
Definition entered : state bool Demo.portal_state :=
  snd (__enter__ (Cap:=Demo.capability) (Demo.api_user Demo.good_day)).

Definition entered_cli : cli_state bool Demo.portal_state := mk_cli entered [].

Definition left_again : state bool Demo.portal_state :=
  run_ops (Util:=Demo.utilities) (Cap:=Demo.capability) [Enter; Exit []]
    (Demo.api_user Demo.good_day).

(** The entries of the directory of the scripted portal. *)
Definition account_entries : list (pyval * pyval) :=
  [(PyInt 0, Demo.account "checking" "DE01"); (PyInt 1, Demo.account "savings" "DE02")].

(** The session the wrappers that return [None] for transactions give. *)
Definition entered_without_transactions : state bool Demo.portal_state :=
  snd (__enter__ (Cap:=no_transactions) (Demo.api_user Demo.good_day)).

End DemoCli.

(** * Properties *)

Section Properties.

Context {Logger World : Type} {Util : Utilities Logger} {Cap : Capability Logger World}.
Local Abbreviation Wrapper := (Wrapper Logger).
Local Abbreviation event := (event Logger).
Local Abbreviation DKBRobo := (DKBRobo Logger).
Local Abbreviation state := (state Logger World).
Local Abbreviation M := (M Logger World).
Local Abbreviation client := (client Logger).

Ltac exec :=
  unfold __enter__, __exit__, __init__, get_credit_limits, get_exemption_order, get_points,
    get_standing_orders, get_transactions, scan_postbox, debug, logger_attr, wrapper_attr,
    call_validate_dates, bind, attr, assign, emit, call, ret, raise, lift in *;
  cbn [self portal calls fst snd] in *.

Ltac break :=
  match goal with
  | |- context [match ?x with _ => _ end] =>
      lazymatch x with
      | context [match _ with _ => _ end] => fail
      | _ => destruct x eqn:?
      end
  | |- context [if ?x then _ else _] =>
      lazymatch x with
      | context [if _ then _ else _] => fail
      | _ => destruct x eqn:?
      end
  end.

(** ** What [__enter__] computes *)

Lemma enter_unfold (s : state) :
  __enter__ s =
  let o := flags_settled (self s) in
  let w := built_wrapper o in
  match invoke w M_init (portal s) with
  | (Raise e, p1) => (Raise e, mk_state o p1 (calls s ++ [EvCall w M_init]))
  | (Return _, p1) =>
      let o' := set_wrapper (Some w) o in
      let log := (calls s ++ [EvCall w M_init; EvCall w M_login])%list in
      match invoke w M_login p1 with
      | (Raise e, p2) => (Raise e, mk_state o' p2 log)
      | (Return r, p2) =>
          match unpack2 r with
          | Raise e => (Raise e, mk_state o' p2 log)
          | Return (a, ll) =>
              (Return tt, mk_state (set_last_login ll (set_account_dic a o')) p2 log)
          end
      end
  end.
Proof.
  destruct s as [o p c]. unfold flags_settled, built_wrapper. exec.
  destruct (py_truthy (tan_insert o)) eqn:Ht; cbn;
    [destruct (py_eq_str (mfa_device o) "m") eqn:Hm
    |destruct (py_eq_str (mfa_device o) "m") eqn:Hm]; cbn;
    try destruct (py_truthy (legacy_login o)) eqn:Hl; cbn;
    repeat (break; cbn; rewrite <- ?app_assoc; cbn; try reflexivity; try congruence).
Qed.

(** ** What the read operations compute *)

Lemma plain_read_unfold (fmt name : string) (m : method) (s : state) :
  (debug fmt [] ;;; w <- wrapper_attr name ;; call w m) s = plain_read fmt name m s.
Proof.
  destruct s as [[ll du dp px la md ad ti [lg|] [w|]] p c];
    unfold plain_read, no_attribute; exec; cbn; try reflexivity.
  destruct (invoke w m p); cbn. rewrite <- app_assoc. reflexivity.
Qed.

Lemma get_transactions_unfold (u a f t ty : pyval) (s : state) :
  get_transactions u a f t ty s =
  match logger (self s) with
  | None => (Raise (no_attribute "debug"), s)
  | Some lg =>
      let log :=
        (calls s ++ [EvDebug lg "DKBRobo.get_transactions(%s/%s: %s/%s)\n" [u; a; f; t];
                     EvValidateDates (Some lg) f t 3 (legacy_login (self s))])%list in
      match validated_range (Some lg) f t 3 (legacy_login (self s)) with
      | Raise e => (Raise e, mk_state (self s) (portal s) log)
      | Return (f', t') =>
          match wrapper (self s) with
          | None => (Raise (no_attribute "get_transactions"), mk_state (self s) (portal s) log)
          | Some w =>
              let m := M_get_transactions u a f' t' ty in
              match invoke w m (portal s) with
              | (Raise e, p) => (Raise e, mk_state (self s) p (log ++ [EvCall w m]))
              | (Return txs, p) =>
                  match py_len txs with
                  | Raise e => (Raise e, mk_state (self s) p (log ++ [EvCall w m]))
                  | Return n =>
                      (Return txs,
                       mk_state (self s) p
                         (log ++ [EvCall w m;
                                  EvDebug lg "DKBRobo.get_transactions(): %s transactions returned\n" [n]]))
                  end
              end
          end
      end
  end.
Proof.
  destruct s as [[ll du dp px la md ad ti [lg|] [w|]] p c];
    unfold validated_range, no_attribute; exec; cbn; try reflexivity.
  - destruct (validate_dates (Some lg) f t 3 ll) as [v|e]; cbn;
      [|rewrite <- app_assoc; reflexivity].
    destruct (unpack2 v) as [[f' t']|e]; cbn; [|rewrite <- app_assoc; reflexivity].
    destruct (invoke w (M_get_transactions u a f' t' ty) p) as [[txs|e] p']; cbn;
      [|rewrite <- !app_assoc; reflexivity].
    destruct (py_len txs); cbn; rewrite <- !app_assoc; reflexivity.
  - destruct (validate_dates (Some lg) f t 3 ll) as [v|e]; cbn;
      [|rewrite <- app_assoc; reflexivity].
    destruct (unpack2 v) as [[f' t']|e]; cbn; rewrite <- app_assoc; reflexivity.
Qed.

Lemma exit_unfold (args : list pyval) (s : state) :
  __exit__ args s =
  match wrapper (self s) with
  | None => (Raise (no_attribute "logout"), s)
  | Some w =>
      (match fst (invoke w M_logout (portal s)) with
       | Return _ => Return PyNone
       | Raise e => Raise e
       end,
       mk_state (self s) (snd (invoke w M_logout (portal s))) (calls s ++ [EvCall w M_logout]))
  end.
Proof.
  destruct s as [[ll du dp px la md ad ti lg [w|]] p c];
    unfold no_attribute; exec; cbn; try reflexivity.
  destruct (invoke w M_logout p) as [[v|e] p']; reflexivity.
Qed.

(** ** The call log only grows *)

Lemma new_calls_app (s s' : state) (l : list event) :
  calls s' = (calls s ++ l)%list -> new_calls s s' = l.
Proof.
  intros E. unfold new_calls. rewrite E.
  rewrite skipn_app, skipn_all, Nat.sub_diag. reflexivity.
Qed.

(** A read leaves the instance alone and makes at most one call, of a read
    method of the wrapper in place; what that call raises, the read
    raises. *)
Lemma read_effect (op : read_op) (s : state) :
  exists l,
    calls (snd (run_read op s)) = (calls s ++ l)%list /\
    self (snd (run_read op s)) = self s /\
    forall w m, In (EvCall w m) l ->
      wrapper (self s) = Some w /\ is_read_method m = true /\
      portal (snd (run_read op s)) = snd (invoke w m (portal s)) /\
      forall e, fst (invoke w m (portal s)) = Raise e -> fst (run_read op s) = Raise e.
Proof.
  assert (plain : forall fmt name m, is_read_method m = true ->
    exists l,
      calls (snd (plain_read fmt name m s)) = (calls s ++ l)%list /\
      self (snd (plain_read fmt name m s)) = self s /\
      forall w m', In (EvCall w m') l ->
        wrapper (self s) = Some w /\ is_read_method m' = true /\
        portal (snd (plain_read fmt name m s)) = snd (invoke w m' (portal s)) /\
        forall e, fst (invoke w m' (portal s)) = Raise e ->
                  fst (plain_read fmt name m s) = Raise e).
  { intros fmt name m Hm. unfold plain_read.
    destruct (logger (self s)) as [lg|].
    - destruct (wrapper (self s)) as [w|].
      + eexists; split; [reflexivity|]. split; [reflexivity|].
        intros w' m' [E|[E|[]]]; [discriminate|]. injection E as <- <-.
        cbn. auto.
      + eexists; split; [reflexivity|]. split; [reflexivity|].
        intros w' m' [E|[]]; discriminate.
    - exists []. rewrite app_nil_r. split; [reflexivity|]. split; [reflexivity|].
      intros w' m' []. }
  destruct op as [| | |uid|u a f t ty|pa d ar pd]; cbn [run_read];
    try (unfold get_credit_limits, get_exemption_order, get_points, get_standing_orders,
           scan_postbox;
         rewrite plain_read_unfold; apply plain; reflexivity).
  rewrite get_transactions_unfold.
  destruct (logger (self s)) as [lg|].
  2:{ exists []. rewrite app_nil_r. split; [reflexivity|]. split; [reflexivity|].
      intros w' m' []. }
  cbv zeta.
  destruct (validated_range (Some lg) f t 3 (legacy_login (self s))) as [[f' t']|e].
  2:{ eexists; split; [reflexivity|]. split; [reflexivity|].
      intros w' m' [E|[E|[]]]; discriminate. }
  destruct (wrapper (self s)) as [w|].
  2:{ eexists; split; [reflexivity|]. split; [reflexivity|].
      intros w' m' [E|[E|[]]]; discriminate. }
  destruct (invoke w (M_get_transactions u a f' t' ty) (portal s)) as [[txs|e] p'] eqn:Hi.
  - destruct (py_len txs) as [n|e]; cbn [fst snd calls self portal];
      rewrite <- app_assoc; eexists; (split; [reflexivity|]); (split; [reflexivity|]);
      intros w' m' Hin; cbn in Hin;
      destruct Hin as [E|[E|[E|Hin]]]; try discriminate;
      try (destruct Hin as [E|[]]; discriminate); try (destruct Hin);
      injection E as <- <-; rewrite Hi; cbn; repeat split; intros; discriminate.
  - cbn [fst snd calls self portal]. rewrite <- app_assoc. eexists. split; [reflexivity|].
    split; [reflexivity|]. intros w' m' Hin; cbn in Hin.
    destruct Hin as [E|[E|[E|[]]]]; try discriminate.
    injection E as <- <-. rewrite Hi. cbn. repeat split. intros e' [= ->]. reflexivity.
Qed.

Lemma read_self (op : read_op) (s : state) : self (snd (run_read op s)) = self s.
Proof. destruct (read_effect op s) as (l & _ & E & _). exact E. Qed.

Lemma exit_self (args : list pyval) (s : state) : self (snd (__exit__ args s)) = self s.
Proof. rewrite exit_unfold. destruct (wrapper (self s)); reflexivity. Qed.

(** The code of a caller in the scope leaves the instance alone and never
    calls anything but read methods. *)
Lemma client_effect (c : client) (s : state) :
  exists l,
    calls (snd (run_client c s)) = (calls s ++ l)%list /\
    self (snd (run_client c s)) = self s /\
    forall w m, In (EvCall w m) l -> wrapper (self s) = Some w /\ is_read_method m = true.
Proof.
  revert s. induction c as [|e|k IH|op k IH]; intros s; cbn [run_client].
  - exists []. cbn. rewrite app_nil_r. split; [reflexivity|]. split; [reflexivity|].
    intros w m [].
  - exists []. cbn. rewrite app_nil_r. split; [reflexivity|]. split; [reflexivity|].
    intros w m [].
  - apply IH.
  - destruct (read_effect op s) as (l1 & E1 & S1 & C1).
    destruct (run_read op s) as [r s1]. cbn [snd] in *.
    destruct (IH r s1) as (l2 & E2 & S2 & C2).
    exists (l1 ++ l2)%list. rewrite E2, E1, S2, S1, app_assoc.
    split; [reflexivity|]. split; [reflexivity|].
    intros w m Hin. apply in_app_or in Hin. destruct Hin as [Hin|Hin].
    + destruct (C1 _ _ Hin) as (Hw & Hm & _). auto.
    + rewrite <- S1. apply (C2 _ _ Hin).
Qed.

(** ** Scope entry *)

Lemma flags_settled_tan (o : DKBRobo) : tan_insert (flags_settled o) = tan_insert o.
Proof.
  unfold flags_settled.
  destruct (py_truthy (tan_insert o)); cbn;
    match goal with |- context [py_eq_str ?d "m"] => destruct (py_eq_str d "m") end;
    reflexivity.
Qed.

Lemma flags_settled_legacy (o : DKBRobo) :
  py_truthy (legacy_login (flags_settled o)) =
  py_truthy (tan_insert o) || py_truthy (legacy_login o).
Proof.
  unfold flags_settled.
  destruct (py_truthy (tan_insert o)) eqn:Ht; cbn;
    match goal with |- context [py_eq_str ?d "m"] => destruct (py_eq_str d "m") end;
    reflexivity.
Qed.

Lemma built_wrapper_variant (o : DKBRobo) :
  variant_of (built_wrapper o) = if py_truthy (legacy_login o) then Legacy else Api.
Proof. unfold built_wrapper. destruct (py_truthy (legacy_login o)); reflexivity. Qed.

(** The three attributes the selection reads are, after [__enter__], those
    its first two statements left. *)
Lemma enter_flags (s : state) :
  legacy_login (self (snd (__enter__ s))) = legacy_login (flags_settled (self s)) /\
  tan_insert (self (snd (__enter__ s))) = tan_insert (self s) /\
  mfa_device (self (snd (__enter__ s))) = mfa_device (flags_settled (self s)).
Proof.
  rewrite <- (flags_settled_tan (self s)). rewrite enter_unfold. cbv zeta.
  destruct (invoke _ M_init _) as [[v|e] p1]; [|cbn; auto].
  destruct (invoke _ M_login _) as [[r|e] p2]; [|cbn; auto].
  destruct (unpack2 r) as [[a ll]|e]; cbn; auto.
Qed.

Lemma run_op_config (o : facade_op) (s : state) :
  configured_variant (self (run_op o s)) = configured_variant (self s).
Proof.
  destruct o as [|args|op]; cbn [run_op].
  - destruct (enter_flags s) as (Hl & Ht & _). unfold configured_variant.
    rewrite Hl, Ht, flags_settled_legacy.
    destruct (py_truthy (tan_insert (self s))), (py_truthy (legacy_login (self s)));
      reflexivity.
  - rewrite exit_self. reflexivity.
  - rewrite read_self. reflexivity.
Qed.

Lemma run_ops_config (ops : list facade_op) (s : state) :
  configured_variant (self (run_ops ops s)) = configured_variant (self s).
Proof.
  revert s. induction ops as [|o ops IH]; intros s; [reflexivity|].
  cbn. unfold run_ops in IH. rewrite IH. apply run_op_config.
Qed.

(** C1 (as amended): the variant is chosen at scope entry, once and before
    any other call to a wrapper, and the choice is a function of the
    configuration alone, whatever was done with the instance before: the
    Legacy variant when the TAN-insertion flag or the legacy-login flag is
    true, the API variant when both are false.  The constructor call of
    the chosen wrapper is the first event of the entry; [login] on that
    same wrapper is the only call that may follow. *)
Theorem C1_variant_selection (s0 : state) (ops : list facade_op) :
  exists w,
    variant_of w =
      (if py_truthy (tan_insert (self s0)) || py_truthy (legacy_login (self s0))
       then Legacy else Api) /\
    ((new_calls (run_ops ops s0) (snd (__enter__ (run_ops ops s0))) = [EvCall w M_init] /\
      exists e, fst (__enter__ (run_ops ops s0)) = Raise e) \/
     (new_calls (run_ops ops s0) (snd (__enter__ (run_ops ops s0))) =
        [EvCall w M_init; EvCall w M_login] /\
      wrapper (self (snd (__enter__ (run_ops ops s0)))) = Some w)).
Proof.
  pose proof (run_ops_config ops s0) as Hc. unfold configured_variant in Hc.
  set (s := run_ops ops s0) in *.
  exists (built_wrapper (flags_settled (self s))). split.
  - rewrite built_wrapper_variant, flags_settled_legacy. exact Hc.
  - rewrite enter_unfold. cbv zeta.
    destruct (invoke _ M_init _) as [[v|e] p1].
    2:{ left. split; [apply new_calls_app; reflexivity|]. exists e. reflexivity. }
    right. destruct (invoke _ M_login _) as [[r|e] p2].
    2:{ split; [apply new_calls_app; reflexivity|reflexivity]. }
    destruct (unpack2 r) as [[a ll]|e];
      (split; [apply new_calls_app; reflexivity|reflexivity]).
Qed.

Lemma flags_settled_mfa (o : DKBRobo) :
  mfa_device (flags_settled o) =
  if py_eq_str (mfa_device o) "m" then PyInt 1 else mfa_device o.
Proof.
  unfold flags_settled.
  destruct (py_truthy (tan_insert o)); cbn;
    destruct (py_eq_str (mfa_device o) "m"); reflexivity.
Qed.

Lemma flags_settled_legacy_value (o : DKBRobo) :
  legacy_login (flags_settled o) =
  if py_truthy (tan_insert o) then PyBool true else legacy_login o.
Proof.
  unfold flags_settled.
  destruct (py_truthy (tan_insert o)); cbn;
    destruct (py_eq_str (mfa_device o) "m"); reflexivity.
Qed.

(** What entry has settled stays settled, whatever is done with the
    instance afterwards. *)
Lemma run_op_settled (o : facade_op) (s : state) :
  tan_insert (self (run_op o s)) = tan_insert (self s) /\
  (py_truthy (tan_insert (self s)) = true -> legacy_login (self s) = PyBool true ->
   legacy_login (self (run_op o s)) = PyBool true) /\
  (mfa_device (self s) = PyInt 1 -> mfa_device (self (run_op o s)) = PyInt 1).
Proof.
  destruct o as [|args|op]; cbn [run_op].
  - destruct (enter_flags s) as (Hl & Ht & Hm).
    rewrite Hl, Ht, Hm, flags_settled_legacy_value, flags_settled_mfa.
    split; [reflexivity|]. split.
    + intros -> _. reflexivity.
    + intros ->. reflexivity.
  - rewrite exit_self. auto.
  - rewrite read_self. auto.
Qed.

Lemma run_ops_settled (ops : list facade_op) (s : state) :
  tan_insert (self (run_ops ops s)) = tan_insert (self s) /\
  (py_truthy (tan_insert (self s)) = true -> legacy_login (self s) = PyBool true ->
   legacy_login (self (run_ops ops s)) = PyBool true) /\
  (mfa_device (self s) = PyInt 1 -> mfa_device (self (run_ops ops s)) = PyInt 1).
Proof.
  revert s. induction ops as [|o ops IH]; intros s; [cbn; auto|].
  change (run_ops (o :: ops) s) with (run_ops ops (run_op o s)).
  destruct (IH (run_op o s)) as (Ht & Hl & Hm).
  destruct (run_op_settled o s) as (Ht' & Hl' & Hm').
  rewrite Ht, Ht'. split; [reflexivity|]. split.
  - intros T L. apply Hl; [rewrite Ht'; exact T|apply Hl'; assumption].
  - intros D. apply Hm, Hm', D.
Qed.

(** C10: scope entry first settles the two flags and then builds the
    wrapper from the settled attributes.  A selector equal to the string
    'm' has become the integer 1 and a true TAN-insertion flag has made
    the legacy-login flag [True]; the wrapper whose constructor is called
    is the one built from the attributes as they are after entry; and
    both values are still there after any further use of the instance. *)
Theorem C10_entry_settles_flags (s : state) (ops : list facade_op) :
  (py_eq_str (mfa_device (self s)) "m" = true ->
   mfa_device (self (snd (__enter__ s))) = PyInt 1 /\
   mfa_device (self (run_ops ops (snd (__enter__ s)))) = PyInt 1) /\
  (py_truthy (tan_insert (self s)) = true ->
   legacy_login (self (snd (__enter__ s))) = PyBool true /\
   legacy_login (self (run_ops ops (snd (__enter__ s)))) = PyBool true) /\
  exists rest,
    new_calls s (snd (__enter__ s)) =
      EvCall (if py_truthy (legacy_login (self (snd (__enter__ s))))
              then LegacyWrapper (dkb_user (self s)) (dkb_password (self s))
                     (tan_insert (self s)) (proxies (self s)) (logger (self s))
              else ApiWrapper (dkb_user (self s)) (dkb_password (self s)) (proxies (self s))
                     (mfa_device (self (snd (__enter__ s)))) (logger (self s)))
             M_init :: rest.
Proof.
  destruct (enter_flags s) as (Hl & Ht & Hm).
  destruct (run_ops_settled ops (snd (__enter__ s))) as (Ht' & Hl' & Hm').
  split; [|split].
  - intros E. assert (D : mfa_device (self (snd (__enter__ s))) = PyInt 1).
    { rewrite Hm, flags_settled_mfa, E. reflexivity. }
    split; [exact D|apply Hm', D].
  - intros E. assert (L : legacy_login (self (snd (__enter__ s))) = PyBool true).
    { rewrite Hl, flags_settled_legacy_value, E. reflexivity. }
    split; [exact L|]. apply Hl'; [rewrite Ht; exact E|exact L].
  - rewrite Hl, Hm.
    assert (W : built_wrapper (flags_settled (self s)) =
                if py_truthy (legacy_login (flags_settled (self s)))
                then LegacyWrapper (dkb_user (self s)) (dkb_password (self s))
                       (tan_insert (self s)) (proxies (self s)) (logger (self s))
                else ApiWrapper (dkb_user (self s)) (dkb_password (self s)) (proxies (self s))
                       (mfa_device (flags_settled (self s))) (logger (self s))).
    { unfold built_wrapper, flags_settled.
      destruct (py_truthy (tan_insert (self s))); cbn;
        destruct (py_eq_str (mfa_device (self s)) "m"); reflexivity. }
    rewrite <- W. rewrite enter_unfold. cbv zeta.
    destruct (invoke _ M_init _) as [[v|e] p1].
    2:{ eexists. apply new_calls_app. reflexivity. }
    destruct (invoke _ M_login _) as [[r|e] p2].
    2:{ eexists. apply new_calls_app. reflexivity. }
    destruct (unpack2 r) as [[a ll]|e]; eexists; apply new_calls_app; reflexivity.
Qed.

Lemma flags_settled_directory (o : DKBRobo) :
  account_dic (flags_settled o) = account_dic o /\
  last_login (flags_settled o) = last_login o.
Proof.
  unfold flags_settled.
  destruct (py_truthy (tan_insert o)); cbn;
    destruct (py_eq_str (mfa_device o) "m"); cbn; auto.
Qed.

(** C7: however [__enter__] fails (the login of the wrapper raising is one
    way), the account directory and the last-login value of the instance
    are what they were before, the statement [with ... as dkb] raises the
    same error with the instance in the same state, and the body never
    runs. *)
Theorem C7_failed_entry_assigns_nothing (s : state) (e : exn) (body : M unit) :
  fst (__enter__ s) = Raise e ->
  account_dic (self (snd (__enter__ s))) = account_dic (self s) /\
  last_login (self (snd (__enter__ s))) = last_login (self s) /\
  with_ body s = (Raise e, snd (__enter__ s)).
Proof.
  intros E. unfold with_. destruct (__enter__ s) as [r s1] eqn:E1.
  cbn [fst snd] in *. subst r.
  enough (D : account_dic (self s1) = account_dic (flags_settled (self s)) /\
              last_login (self s1) = last_login (flags_settled (self s))).
  { destruct (flags_settled_directory (self s)) as (Ha & Hl).
    destruct D as (Da & Dl). rewrite Da, Dl, Ha, Hl. auto. }
  rewrite enter_unfold in E1. cbv zeta in E1.
  destruct (invoke _ M_init _) as [[v|e0] p1].
  2:{ injection E1 as <- <-. cbn. auto. }
  destruct (invoke _ M_login _) as [[r|e1] p2].
  2:{ injection E1 as <- <-. cbn. auto. }
  destruct (unpack2 r) as [[a ll]|e2]; [discriminate|].
  injection E1 as <- <-. cbn. auto.
Qed.

(** ** Before entry, and between logins *)

Lemma wrapper_calls_app (l1 l2 : list event) :
  wrapper_calls (l1 ++ l2) = (wrapper_calls l1 ++ wrapper_calls l2)%list.
Proof. apply filter_app. Qed.

(** Without a wrapper in place a read fails on the attribute access and
    reaches nothing outside. *)
Lemma read_without_wrapper (op : read_op) (s : state) :
  wrapper (self s) = None ->
  exists l,
    calls (snd (run_read op s)) = (calls s ++ l)%list /\ wrapper_calls l = [] /\
    portal (snd (run_read op s)) = portal s.
Proof.
  intros W.
  assert (plain : forall fmt name m,
    exists l,
      calls (snd (plain_read fmt name m s)) = (calls s ++ l)%list /\ wrapper_calls l = [] /\
      portal (snd (plain_read fmt name m s)) = portal s).
  { intros fmt name m. unfold plain_read. rewrite W.
    destruct (logger (self s)) as [lg|].
    - eexists. cbn. split; [reflexivity|]. auto.
    - exists []. rewrite app_nil_r. auto. }
  destruct op as [| | |uid|u a f t ty|pa d ar pd]; cbn [run_read];
    try (unfold get_credit_limits, get_exemption_order, get_points, get_standing_orders,
           scan_postbox;
         rewrite plain_read_unfold; apply plain).
  rewrite get_transactions_unfold, W.
  destruct (logger (self s)) as [lg|].
  2:{ exists []. rewrite app_nil_r. auto. }
  cbv zeta. destruct (validated_range _ _ _ _ _) as [[f' t']|e];
    eexists; cbn; (split; [reflexivity|]); auto.
Qed.

Lemma run_ops_before_entry (ops : list facade_op) (s : state) :
  forallb (fun o => negb (is_enter o)) ops = true ->
  wrapper (self s) = None ->
  wrapper (self (run_ops ops s)) = None /\
  portal (run_ops ops s) = portal s /\
  wrapper_calls (calls (run_ops ops s)) = wrapper_calls (calls s).
Proof.
  revert s. induction ops as [|o ops IH]; intros s F W; [cbn; auto|].
  cbn [forallb] in F. apply andb_true_iff in F. destruct F as (Fo & F).
  change (run_ops (o :: ops) s) with (run_ops ops (run_op o s)).
  assert (step : wrapper (self (run_op o s)) = None /\
                 portal (run_op o s) = portal s /\
                 wrapper_calls (calls (run_op o s)) = wrapper_calls (calls s)).
  { destruct o as [|args|op]; [discriminate| |]; cbn [run_op].
    - rewrite exit_unfold, W. auto.
    - destruct (read_without_wrapper op s W) as (l & E & C & P).
      rewrite read_self, E, wrapper_calls_app, C, app_nil_r. auto. }
  destruct step as (W1 & P1 & C1). destruct (IH _ F W1) as (W2 & P2 & C2).
  rewrite W2, P2, C2, P1, C1. auto.
Qed.

(** C8: constructing an instance calls [logger_setup] and nothing else.
    The new instance has no wrapper, the world outside is untouched and
    no wrapper has been called; this stays so through whatever is done
    with the instance short of entering the scope, and the entry then
    starts with the constructor call of a wrapper. *)
Theorem C8_construction_selects_nothing (u pw tan leg dbg mfa : pyval) (p : World)
    (ops : list facade_op) :
  forallb (fun o => negb (is_enter o)) ops = true ->
  (wrapper (self (DKBRobo_new u pw tan leg dbg mfa p)) = None /\
   portal (DKBRobo_new u pw tan leg dbg mfa p) = p /\
   calls (DKBRobo_new u pw tan leg dbg mfa p) = [EvLoggerSetup dbg]) /\
  (wrapper (self (run_ops ops (DKBRobo_new u pw tan leg dbg mfa p))) = None /\
   portal (run_ops ops (DKBRobo_new u pw tan leg dbg mfa p)) = p /\
   wrapper_calls (calls (run_ops ops (DKBRobo_new u pw tan leg dbg mfa p))) = []) /\
  exists w rest,
    new_calls (run_ops ops (DKBRobo_new u pw tan leg dbg mfa p))
              (snd (__enter__ (run_ops ops (DKBRobo_new u pw tan leg dbg mfa p)))) =
    EvCall w M_init :: rest.
Proof.
  intros F. set (s := DKBRobo_new u pw tan leg dbg mfa p).
  assert (N : wrapper (self s) = None /\ portal s = p /\ calls s = [EvLoggerSetup dbg]).
  { subst s. unfold DKBRobo_new. exec. cbn. auto. }
  destruct N as (W & P & C). split; [auto|]. split.
  - destruct (run_ops_before_entry ops s F W) as (W' & P' & C').
    rewrite W', P', C', P, C. auto.
  - rewrite enter_unfold. cbv zeta. eexists.
    destruct (invoke _ M_init _) as [[v|e] p1].
    2:{ eexists. apply new_calls_app. reflexivity. }
    destruct (invoke _ M_login _) as [[r|e] p2].
    2:{ eexists. apply new_calls_app. reflexivity. }
    destruct (unpack2 r) as [[a ll]|e]; eexists; apply new_calls_app; reflexivity.
Qed.

(** C9: a read operation leaves the account directory and the last-login
    value of the instance as they are (so does [__exit__]); a successful
    entry stores the two components of what this entry's own [login] call
    returned.  The two attributes are the values [login] returned: the
    facade has no statement that writes into them. *)
Theorem C9_directory_set_by_login_only (s : state) (op : read_op) (args : list pyval) :
  (account_dic (self (snd (run_read op s))) = account_dic (self s) /\
   last_login (self (snd (run_read op s))) = last_login (self s)) /\
  (account_dic (self (snd (__exit__ args s))) = account_dic (self s) /\
   last_login (self (snd (__exit__ args s))) = last_login (self s)) /\
  (fst (__enter__ s) = Return tt ->
   exists w r,
     new_calls s (snd (__enter__ s)) = [EvCall w M_init; EvCall w M_login] /\
     fst (invoke w M_login (snd (invoke w M_init (portal s)))) = Return r /\
     unpack2 r =
       Return (account_dic (self (snd (__enter__ s))), last_login (self (snd (__enter__ s))))).
Proof.
  rewrite read_self, exit_self. split; [auto|]. split; [auto|].
  rewrite enter_unfold. cbv zeta.
  exists (built_wrapper (flags_settled (self s))).
  destruct (invoke _ M_init _) as [[v|e] p1]; [|discriminate]. cbn [snd].
  destruct (invoke _ M_login _) as [[r|e] p2]; [|discriminate].
  destruct (unpack2 r) as [[a ll]|e] eqn:U; [|discriminate].
  exists r. split; [apply new_calls_app; reflexivity|]. auto.
Qed.

(** ** Leaving the scope *)

Lemma reads_are_no_logout (l : list event) :
  (forall w m, In (EvCall w m) l -> is_read_method m = true) ->
  List.filter is_logout_of l = [].
Proof.
  induction l as [|ev l IH]; intros R; [reflexivity|]. cbn [List.filter].
  rewrite IH by (intros w m Hin; apply (R w m); right; exact Hin).
  destruct ev as [d|lg fmt args|lg f t y ll|w m]; try reflexivity.
  specialize (R w m (or_introl eq_refl)). destruct m; try reflexivity; discriminate.
Qed.

(** C2 (as amended): when [__enter__] has returned, every way out of the
    body, normal or by an error, is followed by exactly one [logout] call
    on the wrapper chosen at entry, as the last call of the statement; an
    error of that [logout] is raised to the caller (in place of the
    body's outcome), otherwise the outcome of the body stands.  When
    [__enter__] raises, the statement raises the same error at once and
    no [logout] is called. *)
Theorem C2_logout_follows_an_entered_scope (s : state) (c : client) :
  (forall e, fst (__enter__ s) = Raise e ->
     with_ (run_client c) s = (Raise e, snd (__enter__ s)) /\
     List.filter is_logout_of (new_calls s (snd (__enter__ s))) = []) /\
  (fst (__enter__ s) = Return tt ->
   exists w,
     wrapper (self (snd (__enter__ s))) = Some w /\
     List.filter is_logout_of (new_calls s (snd (run_client c (snd (__enter__ s))))) = [] /\
     new_calls s (snd (with_ (run_client c) s)) =
       (new_calls s (snd (run_client c (snd (__enter__ s)))) ++ [EvCall w M_logout])%list /\
     fst (with_ (run_client c) s) =
       match fst (invoke w M_logout (portal (snd (run_client c (snd (__enter__ s)))))) with
       | Raise e' => Raise e'
       | Return _ => fst (run_client c (snd (__enter__ s)))
       end).
Proof.
  unfold with_. destruct (__enter__ s) as [r0 s1] eqn:E. cbn [fst snd]. split.
  - intros e ->. split; [reflexivity|].
    rewrite enter_unfold in E. cbv zeta in E.
    destruct (invoke _ M_init _) as [[v|e0] p1].
    2:{ injection E as <- <-. erewrite new_calls_app by reflexivity. reflexivity. }
    destruct (invoke _ M_login _) as [[r|e1] p2].
    2:{ injection E as <- <-. erewrite new_calls_app by reflexivity. reflexivity. }
    destruct (unpack2 r) as [[a ll]|e2]; [discriminate|].
    injection E as <- <-. erewrite new_calls_app by reflexivity. reflexivity.
  - intros ->.
    assert (E1 : exists w, wrapper (self s1) = Some w /\
                   calls s1 = (calls s ++ [EvCall w M_init; EvCall w M_login])%list).
    { rewrite enter_unfold in E. cbv zeta in E.
      destruct (invoke _ M_init _) as [[v|e0] p1]; [|discriminate].
      destruct (invoke _ M_login _) as [[r|e1] p2]; [|discriminate].
      destruct (unpack2 r) as [[a ll]|e2]; [|discriminate].
      injection E as <-. eexists. split; reflexivity. }
    destruct E1 as (w & W & C1). exists w. split; [exact W|].
    destruct (client_effect c s1) as (l & C2 & S2 & R).
    destruct (run_client c s1) as [r s2]. cbn [fst snd] in *.
    assert (N2 : new_calls s s2 = ([EvCall w M_init; EvCall w M_login] ++ l)%list).
    { apply new_calls_app. rewrite C2, C1, <- app_assoc. reflexivity. }
    rewrite N2. split.
    { rewrite filter_app. cbn. apply reads_are_no_logout. intros w' m Hin.
      apply (R w' m Hin). }
    rewrite exit_unfold, S2, W.
    destruct (invoke w M_logout (portal s2)) as [[x|e'] p3]; cbn [fst snd].
    + split.
      * destruct r as [[]|e]; cbn; apply new_calls_app;
          rewrite C2, C1, <- !app_assoc; reflexivity.
      * destruct r as [[]|e]; reflexivity.
    + split; [|reflexivity]. apply new_calls_app. cbn [calls].
      rewrite C2, C1, <- !app_assoc. reflexivity.
Qed.

(** ** Errors *)

(** C3 (as amended): an error a wrapper raises in a call made by a read
    operation or in the [login] call of scope entry is raised by the
    facade as it is, the same class and the same message; nothing is
    translated. *)
Theorem C3_wrapper_errors_pass_unchanged (s : state) (e : exn) :
  (forall op w m,
     In (EvCall w m) (new_calls s (snd (run_read op s))) ->
     fst (invoke w m (portal s)) = Raise e ->
     fst (run_read op s) = Raise e) /\
  (forall w,
     In (EvCall w M_login) (new_calls s (snd (__enter__ s))) ->
     fst (invoke w M_login (snd (invoke w M_init (portal s)))) = Raise e ->
     fst (__enter__ s) = Raise e).
Proof.
  split.
  - intros op w m Hin Hr. destruct (read_effect op s) as (l & C & _ & R).
    rewrite (@new_calls_app _ _ _ C) in Hin. destruct (R w m Hin) as (_ & _ & _ & P).
    apply P, Hr.
  - intros w. rewrite enter_unfold. cbv zeta.
    destruct (invoke (built_wrapper _) M_init _) as [[v|e0] p1] eqn:I.
    2:{ erewrite new_calls_app by reflexivity. intros [E|[]]. discriminate. }
    destruct (invoke (built_wrapper _) M_login p1) as [[r|e1] p2] eqn:L.
    + destruct (unpack2 r) as [[a ll]|e2];
        (erewrite new_calls_app by reflexivity);
        (intros [E|[E|[]]]; [discriminate|]);
        injection E as <-; rewrite I; cbn; rewrite L; discriminate.
    + erewrite new_calls_app by reflexivity. intros [E|[E|[]]]; [discriminate|].
      injection E as <-. rewrite I. cbn. rewrite L. cbn. intros [= ->]. reflexivity.
Qed.

(** ** Transactions *)

(** The events of a [get_transactions] call, once the logger is there. *)
Lemma get_transactions_log (s : state) (lg : Logger) (u a f t ty : pyval) :
  logger (self s) = Some lg ->
  exists rest,
    new_calls s (snd (get_transactions u a f t ty s)) =
      EvDebug lg "DKBRobo.get_transactions(%s/%s: %s/%s)\n" [u; a; f; t]
      :: EvValidateDates (Some lg) f t 3 (legacy_login (self s)) :: rest /\
    validator_spans rest = [] /\
    forall w m, In (EvCall w m) rest ->
      wrapper (self s) = Some w /\
      exists v f' t',
        validate_dates (Some lg) f t 3 (legacy_login (self s)) = Return v /\
        unpack2 v = Return (f', t') /\
        m = M_get_transactions u a f' t' ty.
Proof.
  intros L. rewrite get_transactions_unfold, L. cbv zeta. unfold validated_range.
  destruct (validate_dates (Some lg) f t 3 (legacy_login (self s))) as [v|e].
  2:{ exists []. split; [apply new_calls_app; reflexivity|]. split; [reflexivity|].
      intros w m []. }
  destruct (unpack2 v) as [[f' t']|e] eqn:U.
  2:{ exists []. split; [apply new_calls_app; reflexivity|]. split; [reflexivity|].
      intros w m []. }
  destruct (wrapper (self s)) as [w|].
  2:{ exists []. split; [apply new_calls_app; reflexivity|]. split; [reflexivity|].
      intros w m []. }
  destruct (invoke w _ (portal s)) as [[txs|e] p'].
  - destruct (py_len txs) as [n|e]; eexists;
      (split; [apply new_calls_app; cbn [calls snd]; rewrite <- app_assoc; reflexivity|]);
      (split; [reflexivity|]); intros w' m Hin; cbn in Hin;
      destruct Hin as [E|Hin]; try (destruct Hin as [E'|[]]; discriminate);
      try (destruct Hin); injection E as <- <-; (split; [reflexivity|]);
      exists v, f', t'; auto.
  - eexists. split; [apply new_calls_app; cbn [calls snd]; rewrite <- app_assoc; reflexivity|].
    split; [reflexivity|]. intros w' m [E|[]]. injection E as <- <-.
    split; [reflexivity|]. exists v, f', t'. auto.
Qed.

(** Whatever the instance, a span limit the validator sees is 3. *)
Lemma get_transactions_span (s : state) (u a f t ty : pyval) (y : Z) :
  In y (validator_spans (new_calls s (snd (get_transactions u a f t ty s)))) -> y = 3.
Proof.
  destruct (logger (self s)) as [lg|] eqn:L.
  - destruct (get_transactions_log s u a f t ty L) as (rest & N & V & _).
    unfold validator_spans in *. rewrite N. cbn [flat_map app]. rewrite V.
    intros [E|[]]. symmetry. exact E.
  - rewrite get_transactions_unfold, L. cbn [snd].
    erewrite new_calls_app by (symmetry; apply app_nil_r). intros [].
Qed.

(** C4 (as amended): a call of [get_transactions] passes the two dates to
    the date validator exactly once, before any call to the wrapper, with
    the span limit 3 whichever variant is active and with the
    legacy-login flag of the instance; the wrapper, if it is reached,
    receives the pair the validator returned. *)
Theorem C4_validator_gets_the_fixed_span (s : state) (lg : Logger) (u a f t ty : pyval) :
  logger (self s) = Some lg ->
  exists rest,
    new_calls s (snd (get_transactions u a f t ty s)) =
      EvDebug lg "DKBRobo.get_transactions(%s/%s: %s/%s)\n" [u; a; f; t]
      :: EvValidateDates (Some lg) f t 3 (legacy_login (self s)) :: rest /\
    validator_spans rest = [] /\
    forall w m, In (EvCall w m) rest ->
      exists v f' t',
        validate_dates (Some lg) f t 3 (legacy_login (self s)) = Return v /\
        unpack2 v = Return (f', t') /\
        m = M_get_transactions u a f' t' ty.
Proof.
  intros L. destruct (get_transactions_log s u a f t ty L) as (rest & N & V & R).
  exists rest. split; [exact N|]. split; [exact V|].
  intros w m Hin. apply (R w m Hin).
Qed.

(** C5: when the validator rejects the date range, [get_transactions]
    raises the validator's error, no wrapper has been called and the world
    outside is as it was.  And whenever a [get_transactions] of a wrapper
    is reached, the dates it receives are the pair the validator returned
    for the caller's dates. *)
Theorem C5_invalid_range_reaches_no_wrapper (s : state) (lg : Logger) (u a f t ty : pyval) :
  logger (self s) = Some lg ->
  (forall e, validate_dates (Some lg) f t 3 (legacy_login (self s)) = Raise e ->
     fst (get_transactions u a f t ty s) = Raise e /\
     wrapper_calls (new_calls s (snd (get_transactions u a f t ty s))) = [] /\
     portal (snd (get_transactions u a f t ty s)) = portal s) /\
  (forall w m, In (EvCall w m) (new_calls s (snd (get_transactions u a f t ty s))) ->
     exists v f' t',
       validate_dates (Some lg) f t 3 (legacy_login (self s)) = Return v /\
       unpack2 v = Return (f', t') /\
       m = M_get_transactions u a f' t' ty).
Proof.
  intros L. split.
  - intros e V. rewrite get_transactions_unfold, L. cbv zeta.
    unfold validated_range. rewrite V. cbn [fst snd portal].
    erewrite new_calls_app by reflexivity. auto.
  - intros w m Hin. destruct (get_transactions_log s u a f t ty L) as (rest & N & _ & R).
    rewrite N in Hin. destruct Hin as [E|[E|Hin]]; try discriminate.
    apply (R w m Hin).
Qed.

(** C6: when the dates pass the validator and the wrapper returns a list
    of records, [get_transactions] returns that very list, the empty list
    included. *)
Theorem C6_transactions_returned_as_they_come (s : state) (lg : Logger) (w : Wrapper)
    (u a f t ty v f' t' : pyval) (txs : list pyval) :
  logger (self s) = Some lg ->
  wrapper (self s) = Some w ->
  validate_dates (Some lg) f t 3 (legacy_login (self s)) = Return v ->
  unpack2 v = Return (f', t') ->
  fst (invoke w (M_get_transactions u a f' t' ty) (portal s)) = Return (PyList txs) ->
  fst (get_transactions u a f t ty s) = Return (PyList txs).
Proof.
  intros L W V U I. rewrite get_transactions_unfold, L. cbv zeta.
  unfold validated_range. rewrite V, U, W.
  destruct (invoke w _ (portal s)) as [r p']. cbn in I. subst r. reflexivity.
Qed.

End Properties.

(** * The properties on the scripted portal *)

Section Scenarios.

Import Demo.

(** The scenario of the booked transactions: API variant, five records,
    returned in order. *)
Example five_booked_transactions :
  fst (run_read booked_2024 (snd (__enter__ (api_user good_day)))) =
  Return (PyList [tx 1; tx 2; tx 3; tx 4; tx 5]).
Proof. reflexivity. Qed.

(** The scenario of the ten-year range against the limit of three. *)
Example ten_years_rejected :
  fst (run_read ten_years (snd (__enter__ (api_user good_day)))) =
    Raise (DateRangeError "date range exceeds the maximum span") /\
  wrapper_calls
    (new_calls (snd (__enter__ (api_user good_day)))
       (snd (run_read ten_years (snd (__enter__ (api_user good_day)))))) = [].
Proof. split; reflexivity. Qed.

(** C1 on an instance with the TAN flag set, entered after a read that
    failed for want of a wrapper: the Legacy variant. *)
Lemma C1_witness :
  exists w,
    variant_of w = Legacy /\
    ((new_calls (run_ops [Op Get_points] (tan_user good_day))
                (snd (__enter__ (run_ops [Op Get_points] (tan_user good_day)))) =
        [EvCall w M_init] /\
      exists e, fst (__enter__ (run_ops [Op Get_points] (tan_user good_day))) = Raise e) \/
     (new_calls (run_ops [Op Get_points] (tan_user good_day))
                (snd (__enter__ (run_ops [Op Get_points] (tan_user good_day)))) =
        [EvCall w M_init; EvCall w M_login] /\
      wrapper (self (snd (__enter__ (run_ops [Op Get_points] (tan_user good_day))))) =
        Some w)).
Proof. exact (C1_variant_selection (tan_user good_day) [Op Get_points]). Defined.

(** C1 as stated fails: the command line with [--debug] and without
    [--use-tan] has a false TAN flag and enters with the Legacy variant. *)
Lemma C1_counterexample :
  py_truthy (tan_insert (self (cli_debug_user good_day))) = false /\
  new_calls (cli_debug_user good_day) (snd (__enter__ (cli_debug_user good_day))) =
    [EvCall legacy_wrapper M_init; EvCall legacy_wrapper M_login] /\
  option_map variant_of (wrapper (self (snd (__enter__ (cli_debug_user good_day))))) =
    Some Legacy.
Proof. split; [reflexivity|]. split; reflexivity. Qed.

(** C2 on two scopes: one whose login fails (no logout), one that is
    entered and whose body raises (one logout, the body's error stands). *)
Lemma C2_witness :
  (fst (__enter__ (tan_user no_mfa)) = Raise mfa_failure /\
   with_ (run_client quiet_body) (tan_user no_mfa) =
     (Raise mfa_failure, snd (__enter__ (tan_user no_mfa))) /\
   List.filter is_logout_of
     (new_calls (tan_user no_mfa) (snd (__enter__ (tan_user no_mfa)))) = []) /\
  (fst (__enter__ (api_user good_day)) = Return tt /\
   exists w,
     wrapper (self (snd (__enter__ (api_user good_day)))) = Some w /\
     List.filter is_logout_of
       (new_calls (api_user good_day)
          (snd (run_client failing_body (snd (__enter__ (api_user good_day)))))) = [] /\
     new_calls (api_user good_day) (snd (with_ (run_client failing_body) (api_user good_day))) =
       (new_calls (api_user good_day)
          (snd (run_client failing_body (snd (__enter__ (api_user good_day)))))
        ++ [EvCall w M_logout])%list /\
     fst (with_ (run_client failing_body) (api_user good_day)) =
       match fst (invoke w M_logout
                    (portal (snd (run_client failing_body
                                    (snd (__enter__ (api_user good_day))))))) with
       | Raise e' => Raise e'
       | Return _ => fst (run_client failing_body (snd (__enter__ (api_user good_day))))
       end).
Proof.
  split.
  - split; [reflexivity|].
    apply (proj1 (C2_logout_follows_an_entered_scope (tan_user no_mfa) quiet_body)).
    reflexivity.
  - split; [reflexivity|].
    apply (proj2 (C2_logout_follows_an_entered_scope (api_user good_day) failing_body)).
    reflexivity.
Defined.

(** C2 as stated fails: when the login fails, the statement ends without
    any [logout] call; and an error of [logout] at the end of an entered
    scope is raised to the caller, not swallowed. *)
Lemma C2_counterexample :
  (fst (with_ (run_client quiet_body) (tan_user no_mfa)) = Raise mfa_failure /\
   List.filter is_logout_of (calls (snd (with_ (run_client quiet_body) (tan_user no_mfa)))) =
     []) /\
  (fst (with_ (run_client quiet_body) (api_user stuck_logout)) = Raise ConnectionError /\
   List.filter is_logout_of
     (calls (snd (with_ (run_client quiet_body) (api_user stuck_logout)))) =
     [EvCall api_wrapper M_logout]).
Proof. split; split; reflexivity. Qed.

(** C3 on a read after the session was closed and on a login with the TAN
    never confirmed: the wrapper's error comes out as it is. *)
Lemma C3_witness :
  (In (EvCall api_wrapper M_get_points)
      (new_calls (run_ops [Enter; Exit []] (api_user good_day))
         (snd (run_read Get_points (run_ops [Enter; Exit []] (api_user good_day))))) /\
   fst (invoke api_wrapper M_get_points (portal (run_ops [Enter; Exit []] (api_user good_day)))) =
     Raise session_expired /\
   fst (run_read Get_points (run_ops [Enter; Exit []] (api_user good_day))) =
     Raise session_expired) /\
  (In (EvCall tan_wrapper M_login)
      (new_calls (tan_user no_mfa) (snd (__enter__ (tan_user no_mfa)))) /\
   fst (invoke tan_wrapper M_login
          (snd (invoke tan_wrapper M_init (portal (tan_user no_mfa))))) = Raise mfa_failure /\
   fst (__enter__ (tan_user no_mfa)) = Raise mfa_failure).
Proof.
  split.
  - assert (Hin : In (EvCall api_wrapper M_get_points)
                    (new_calls (run_ops [Enter; Exit []] (api_user good_day))
                       (snd (run_read Get_points
                               (run_ops [Enter; Exit []] (api_user good_day)))))).
    { vm_compute. right. left. reflexivity. }
    split; [exact Hin|]. split; [reflexivity|].
    exact (proj1 (C3_wrapper_errors_pass_unchanged
                    (run_ops [Enter; Exit []] (api_user good_day)) session_expired)
             Get_points api_wrapper M_get_points Hin eq_refl).
  - assert (Hin : In (EvCall tan_wrapper M_login)
                    (new_calls (tan_user no_mfa) (snd (__enter__ (tan_user no_mfa))))).
    { vm_compute. right. left. reflexivity. }
    split; [exact Hin|]. split; [reflexivity|].
    exact (proj2 (C3_wrapper_errors_pass_unchanged (tan_user no_mfa) mfa_failure)
             tan_wrapper Hin eq_refl).
Defined.

(** C3 as stated fails: with the portal unreachable the wrapper's login
    raises a [ConnectionError], and that is what [__enter__] raises: not a
    [DKBRoboError], so the handler of the command line does not catch
    it. *)
Lemma C3_counterexample :
  fst (invoke api_wrapper M_login network_down) = Raise ConnectionError /\
  fst (__enter__ (api_user network_down)) = Raise ConnectionError /\
  is_DKBRoboError ConnectionError = false /\
  fst (command (run_client quiet_body) (api_user network_down)) = Raise ConnectionError.
Proof. split; [reflexivity|]. split; [reflexivity|]. split; reflexivity. Qed.

(** C4 in a Legacy session. *)
Lemma C4_witness :
  logger (self (snd (__enter__ (legacy_user good_day)))) = Some false /\
  exists rest,
    new_calls (snd (__enter__ (legacy_user good_day)))
      (snd (get_transactions (PyStr "/tx/DE01") (PyStr "account") (PyStr "01.01.2024")
              (PyStr "01.03.2024") (PyStr "booked") (snd (__enter__ (legacy_user good_day))))) =
      EvDebug false "DKBRobo.get_transactions(%s/%s: %s/%s)\n"
        [PyStr "/tx/DE01"; PyStr "account"; PyStr "01.01.2024"; PyStr "01.03.2024"]
      :: EvValidateDates (Some false) (PyStr "01.01.2024") (PyStr "01.03.2024") 3
           (legacy_login (self (snd (__enter__ (legacy_user good_day))))) :: rest /\
    validator_spans rest = [] /\
    forall w m, In (EvCall w m) rest ->
      exists v f' t',
        validate_dates (Some false) (PyStr "01.01.2024") (PyStr "01.03.2024") 3
          (legacy_login (self (snd (__enter__ (legacy_user good_day))))) = Return v /\
        unpack2 v = Return (f', t') /\
        m = M_get_transactions (PyStr "/tx/DE01") (PyStr "account") f' t' (PyStr "booked").
Proof.
  split; [reflexivity|].
  apply (@C4_validator_gets_the_fixed_span _ _ _ _ (snd (__enter__ (legacy_user good_day)))
           false (PyStr "/tx/DE01") (PyStr "account") (PyStr "01.01.2024") (PyStr "01.03.2024")
           (PyStr "booked")).
  reflexivity.
Defined.

(** C4 as stated fails: the Legacy session and the API session validate
    with the same limit, the literal 3, and no instance whatever makes the
    facade pass another one. *)
Lemma C4_counterexample :
  option_map variant_of (wrapper (self (snd (__enter__ (legacy_user good_day))))) =
    Some Legacy /\
  validator_spans
    (calls (snd (run_read booked_2024 (snd (__enter__ (legacy_user good_day)))))) = [3] /\
  option_map variant_of (wrapper (self (snd (__enter__ (api_user good_day))))) =
    Some Api /\
  validator_spans
    (calls (snd (run_read booked_2024 (snd (__enter__ (api_user good_day)))))) = [3] /\
  ~ (exists (s : state bool portal_state) (u a f t ty : pyval) (y : Z),
       In y (validator_spans (new_calls s (snd (get_transactions u a f t ty s)))) /\
       y <> 3).
Proof.
  split; [reflexivity|]. split; [reflexivity|]. split; [reflexivity|].
  split; [reflexivity|].
  intros (s & u & a & f & t & ty & y & Hin & Hy).
  apply Hy. exact (get_transactions_span s u a f t ty y Hin).
Qed.

(** C5 on the ten-year range, and on a range that passes. *)
Lemma C5_witness :
  logger (self (snd (__enter__ (api_user good_day)))) = Some false /\
  (validate_dates (Some false) (PyStr "10.01.2020") (PyStr "10.01.2030") 3
     (legacy_login (self (snd (__enter__ (api_user good_day))))) =
     Raise (DateRangeError "date range exceeds the maximum span") /\
   fst (get_transactions (PyStr "/tx/DE01") (PyStr "account") (PyStr "10.01.2020")
          (PyStr "10.01.2030") (PyStr "booked") (snd (__enter__ (api_user good_day)))) =
     Raise (DateRangeError "date range exceeds the maximum span") /\
   wrapper_calls
     (new_calls (snd (__enter__ (api_user good_day)))
        (snd (get_transactions (PyStr "/tx/DE01") (PyStr "account") (PyStr "10.01.2020")
                (PyStr "10.01.2030") (PyStr "booked") (snd (__enter__ (api_user good_day))))))
     = [] /\
   portal (snd (get_transactions (PyStr "/tx/DE01") (PyStr "account") (PyStr "10.01.2020")
                  (PyStr "10.01.2030") (PyStr "booked") (snd (__enter__ (api_user good_day)))))
     = portal (snd (__enter__ (api_user good_day)))) /\
  (In (EvCall api_wrapper
         (M_get_transactions (PyStr "/tx/DE01") (PyStr "account") (PyStr "01.01.2024")
            (PyStr "01.03.2024") (PyStr "booked")))
      (new_calls (snd (__enter__ (api_user good_day)))
         (snd (get_transactions (PyStr "/tx/DE01") (PyStr "account") (PyStr "01.01.2024")
                 (PyStr "01.03.2024") (PyStr "booked") (snd (__enter__ (api_user good_day)))))) /\
   exists v f' t',
     validate_dates (Some false) (PyStr "01.01.2024") (PyStr "01.03.2024") 3
       (legacy_login (self (snd (__enter__ (api_user good_day))))) = Return v /\
     unpack2 v = Return (f', t') /\
     M_get_transactions (PyStr "/tx/DE01") (PyStr "account") (PyStr "01.01.2024")
       (PyStr "01.03.2024") (PyStr "booked") =
     M_get_transactions (PyStr "/tx/DE01") (PyStr "account") f' t' (PyStr "booked")).
Proof.
  assert (L : logger (self (snd (__enter__ (api_user good_day)))) = Some false)
    by reflexivity.
  split; [exact L|]. split.
  - split; [reflexivity|].
    apply (proj1 (C5_invalid_range_reaches_no_wrapper (snd (__enter__ (api_user good_day)))
                    (PyStr "/tx/DE01") (PyStr "account") (PyStr "10.01.2020")
                    (PyStr "10.01.2030") (PyStr "booked") L)).
    reflexivity.
  - assert (Hin : In (EvCall api_wrapper
                        (M_get_transactions (PyStr "/tx/DE01") (PyStr "account")
                           (PyStr "01.01.2024") (PyStr "01.03.2024") (PyStr "booked")))
                    (new_calls (snd (__enter__ (api_user good_day)))
                       (snd (get_transactions (PyStr "/tx/DE01") (PyStr "account")
                               (PyStr "01.01.2024") (PyStr "01.03.2024") (PyStr "booked")
                               (snd (__enter__ (api_user good_day))))))).
    { vm_compute. right. right. left. reflexivity. }
    split; [exact Hin|].
    exact (proj2 (C5_invalid_range_reaches_no_wrapper (snd (__enter__ (api_user good_day)))
                    (PyStr "/tx/DE01") (PyStr "account") (PyStr "01.01.2024")
                    (PyStr "01.03.2024") (PyStr "booked") L) _ _ Hin).
Defined.

(** C6 on the reserved transactions of the window, of which there are
    none. *)
Lemma C6_witness :
  logger (self (snd (__enter__ (api_user good_day)))) = Some false /\
  wrapper (self (snd (__enter__ (api_user good_day)))) = Some api_wrapper /\
  validate_dates (Some false) (PyStr "01.01.2024") (PyStr "01.03.2024") 3
    (legacy_login (self (snd (__enter__ (api_user good_day))))) =
    Return (PyTuple [PyStr "01.01.2024"; PyStr "01.03.2024"]) /\
  unpack2 (PyTuple [PyStr "01.01.2024"; PyStr "01.03.2024"]) =
    Return (PyStr "01.01.2024", PyStr "01.03.2024") /\
  fst (invoke api_wrapper
         (M_get_transactions (PyStr "/tx/DE01") (PyStr "account") (PyStr "01.01.2024")
            (PyStr "01.03.2024") (PyStr "reserved"))
         (portal (snd (__enter__ (api_user good_day))))) = Return (PyList []) /\
  fst (get_transactions (PyStr "/tx/DE01") (PyStr "account") (PyStr "01.01.2024")
         (PyStr "01.03.2024") (PyStr "reserved") (snd (__enter__ (api_user good_day)))) =
    Return (PyList []).
Proof.
  split; [reflexivity|]. split; [reflexivity|]. split; [reflexivity|].
  split; [reflexivity|]. split; [reflexivity|].
  apply (@C6_transactions_returned_as_they_come _ _ _ _ (snd (__enter__ (api_user good_day)))
           false api_wrapper (PyStr "/tx/DE01") (PyStr "account") (PyStr "01.01.2024")
           (PyStr "01.03.2024") (PyStr "reserved")
           (PyTuple [PyStr "01.01.2024"; PyStr "01.03.2024"])
           (PyStr "01.01.2024") (PyStr "01.03.2024") []); reflexivity.
Defined.

(** C7 on the scenario of the TAN that is never confirmed: the directory
    and the last login are still the class defaults. *)
Lemma C7_witness :
  fst (__enter__ (tan_user no_mfa)) = Raise mfa_failure /\
  (account_dic (self (snd (__enter__ (tan_user no_mfa)))) = PyDict [] /\
   last_login (self (snd (__enter__ (tan_user no_mfa)))) = PyNone /\
   with_ (run_client quiet_body) (tan_user no_mfa) =
     (Raise mfa_failure, snd (__enter__ (tan_user no_mfa)))).
Proof.
  assert (E : fst (__enter__ (tan_user no_mfa)) = Raise mfa_failure) by reflexivity.
  split; [exact E|].
  exact (C7_failed_entry_assigns_nothing (tan_user no_mfa) (run_client quiet_body) E).
Defined.

(** C8 on a new instance that is read from and left before it was ever
    entered. *)
Lemma C8_witness :
  forallb (fun o => negb (is_enter o)) [Op Get_points; Exit []; Op booked_2024] = true /\
  (wrapper (self (api_user good_day)) = None /\
   portal (api_user good_day) = good_day /\
   calls (api_user good_day) = [EvLoggerSetup (PyBool false)]) /\
  (wrapper (self (run_ops [Op Get_points; Exit []; Op booked_2024] (api_user good_day))) =
     None /\
   portal (run_ops [Op Get_points; Exit []; Op booked_2024] (api_user good_day)) = good_day /\
   wrapper_calls
     (calls (run_ops [Op Get_points; Exit []; Op booked_2024] (api_user good_day))) = []) /\
  exists w rest,
    new_calls (run_ops [Op Get_points; Exit []; Op booked_2024] (api_user good_day))
      (snd (__enter__ (run_ops [Op Get_points; Exit []; Op booked_2024]
                         (api_user good_day)))) =
    EvCall w M_init :: rest.
Proof.
  split; [reflexivity|].
  exact (C8_construction_selects_nothing user password (PyBool false) (PyBool false)
           (PyBool false) PyNone good_day [Op Get_points; Exit []; Op booked_2024] eq_refl).
Defined.

(** C9 in an API session. *)
Lemma C9_witness :
  fst (__enter__ (api_user good_day)) = Return tt /\
  (account_dic (self (snd (run_read booked_2024 (snd (__enter__ (api_user good_day)))))) =
     account_dic (self (snd (__enter__ (api_user good_day)))) /\
   last_login (self (snd (run_read booked_2024 (snd (__enter__ (api_user good_day)))))) =
     last_login (self (snd (__enter__ (api_user good_day))))) /\
  exists w r,
    new_calls (api_user good_day) (snd (__enter__ (api_user good_day))) =
      [EvCall w M_init; EvCall w M_login] /\
    fst (invoke w M_login (snd (invoke w M_init (portal (api_user good_day))))) = Return r /\
    unpack2 r =
      Return (account_dic (self (snd (__enter__ (api_user good_day)))),
              last_login (self (snd (__enter__ (api_user good_day))))).
Proof.
  assert (E : fst (__enter__ (api_user good_day)) = Return tt) by reflexivity.
  split; [exact E|]. split.
  - exact (proj1 (C9_directory_set_by_login_only (snd (__enter__ (api_user good_day)))
                    booked_2024 [])).
  - exact (proj2 (proj2 (C9_directory_set_by_login_only (api_user good_day) Get_points [])) E).
Defined.

(** C10 on an instance with the TAN flag and the selector 'm', entered,
    read from, left and entered again. *)
Lemma C10_witness :
  (py_eq_str (mfa_device (self (tan_m_user good_day))) "m" = true /\
   mfa_device (self (snd (__enter__ (tan_m_user good_day)))) = PyInt 1 /\
   mfa_device (self (run_ops [Op Get_points; Exit []; Enter]
                       (snd (__enter__ (tan_m_user good_day))))) = PyInt 1) /\
  (py_truthy (tan_insert (self (tan_m_user good_day))) = true /\
   legacy_login (self (snd (__enter__ (tan_m_user good_day)))) = PyBool true /\
   legacy_login (self (run_ops [Op Get_points; Exit []; Enter]
                         (snd (__enter__ (tan_m_user good_day))))) = PyBool true).
Proof.
  assert (Em : py_eq_str (mfa_device (self (tan_m_user good_day))) "m" = true)
    by reflexivity.
  assert (Et : py_truthy (tan_insert (self (tan_m_user good_day))) = true)
    by reflexivity.
  split.
  - split; [exact Em|].
    exact (proj1 (C10_entry_settles_flags (tan_m_user good_day)
                    [Op Get_points; Exit []; Enter]) Em).
  - split; [exact Et|].
    exact (proj1 (proj2 (C10_entry_settles_flags (tan_m_user good_day)
                           [Op Get_points; Exit []; Enter])) Et).
Defined.

(** The selector 'm' reaches the API wrapper as the integer 1. *)
Example api_wrapper_gets_the_settled_selector :
  wrapper (self (snd (__enter__
     (DKBRobo_new user password (PyBool false) (PyBool false) (PyBool false) (PyStr "m")
        good_day)))) =
  Some (ApiWrapper user password (PyDict []) (PyInt 1) (Some false)).
Proof. reflexivity. Qed.

End Scenarios.

(** * Further properties of the facade *)

Section MoreProperties.

Context {Logger World : Type} {Util : Utilities Logger} {Cap : Capability Logger World}.
Local Abbreviation Wrapper := (Wrapper Logger).
Local Abbreviation event := (event Logger).
Local Abbreviation DKBRobo := (DKBRobo Logger).
Local Abbreviation state := (state Logger World).
Local Abbreviation M := (M Logger World).
Local Abbreviation client := (client Logger).

(** X1: an instance that has not been entered has no wrapper, and using
    it fails without reaching anything: [__exit__] raises the
    [AttributeError] of [None.logout] and leaves everything as it was; a
    read operation never returns, calls no wrapper and leaves the instance
    and the world as they were. *)
Theorem X1_use_before_entry_fails (s : state) (op : read_op) (args : list pyval) :
  wrapper (self s) = None ->
  __exit__ args s = (Raise (no_attribute "logout"), s) /\
  (exists e, fst (run_read op s) = Raise e) /\
  wrapper_calls (new_calls s (snd (run_read op s))) = [] /\
  portal (snd (run_read op s)) = portal s /\
  self (snd (run_read op s)) = self s.
Proof.
  intros W. split; [rewrite exit_unfold, W; reflexivity|].
  split.
  - assert (plain : forall fmt name m, exists e, fst (plain_read fmt name m s) = Raise e).
    { intros fmt name m. unfold plain_read. rewrite W.
      destruct (logger (self s)); eexists; reflexivity. }
    destruct op as [| | |uid|u a f t ty|pa d ar pd]; cbn [run_read];
      try (unfold get_credit_limits, get_exemption_order, get_points, get_standing_orders,
             scan_postbox;
           rewrite plain_read_unfold; apply plain).
    rewrite get_transactions_unfold, W.
    destruct (logger (self s)); [|eexists; reflexivity].
    cbv zeta. destruct (validated_range _ _ _ _ _) as [[f' t']|e]; eexists; reflexivity.
  - destruct (read_without_wrapper op s W) as (l & C & N & P).
    erewrite new_calls_app by exact C. rewrite read_self. auto.
Qed.

(** X2: with a logger and a wrapper in place, a read other than
    [get_transactions] is one call of the wrapper method of the same name
    with the same arguments: what that call returns or raises is the
    outcome of the read, the world is the one the call left, and the
    instance is untouched. *)
Theorem X2_plain_reads_pass_through (s : state) (op : read_op) (lg : Logger) (w : Wrapper)
    (m : method) :
  logger (self s) = Some lg ->
  wrapper (self s) = Some w ->
  plain_method op = Some m ->
  fst (run_read op s) = fst (invoke w m (portal s)) /\
  portal (snd (run_read op s)) = snd (invoke w m (portal s)) /\
  wrapper_calls (new_calls s (snd (run_read op s))) = [EvCall w m] /\
  self (snd (run_read op s)) = self s.
Proof.
  intros L W P.
  assert (plain : forall fmt name,
    fst (plain_read fmt name m s) = fst (invoke w m (portal s)) /\
    portal (snd (plain_read fmt name m s)) = snd (invoke w m (portal s)) /\
    wrapper_calls (new_calls s (snd (plain_read fmt name m s))) = [EvCall w m] /\
    self (snd (plain_read fmt name m s)) = self s).
  { intros fmt name. unfold plain_read. rewrite L, W. cbn [fst snd portal self calls].
    erewrite new_calls_app by reflexivity. auto. }
  destruct op as [| | |uid|u a f t ty|pa d ar pd]; cbn in P; try discriminate;
    injection P as <-; cbn [run_read];
    unfold get_credit_limits, get_exemption_order, get_points, get_standing_orders,
      scan_postbox;
    rewrite plain_read_unfold; apply plain.
Qed.

(** X3: [get_transactions] takes the length of what the wrapper returned
    before it returns it.  When the dates pass the validator and the
    wrapper returns [v], the outcome is [v] if [v] has a length and the
    [TypeError] of [len(v)] if it has none; either way the wrapper has
    been called once and the world is the one the call left. *)
Theorem X3_transactions_need_a_length (s : state) (lg : Logger) (w : Wrapper)
    (u a f t ty x f' t' v : pyval) (p' : World) :
  logger (self s) = Some lg ->
  wrapper (self s) = Some w ->
  validate_dates (Some lg) f t 3 (legacy_login (self s)) = Return x ->
  unpack2 x = Return (f', t') ->
  invoke w (M_get_transactions u a f' t' ty) (portal s) = (Return v, p') ->
  fst (get_transactions u a f t ty s) =
    match py_len v with
    | Return _ => Return v
    | Raise e => Raise e
    end /\
  portal (snd (get_transactions u a f t ty s)) = p' /\
  wrapper_calls (new_calls s (snd (get_transactions u a f t ty s))) =
    [EvCall w (M_get_transactions u a f' t' ty)].
Proof.
  intros L W V U I. rewrite get_transactions_unfold, L. cbv zeta.
  unfold validated_range. rewrite V, U, W, I.
  destruct (py_len v); cbn [fst snd portal calls];
    rewrite <- app_assoc; erewrite new_calls_app by reflexivity; auto.
Qed.

(** X4: when the wrapper's [login] returns something that does not unpack
    into exactly two items, [__enter__] raises the [TypeError] or
    [ValueError] of the unpacking.  The login has happened and the wrapper
    is in place, but the directory and the last login are not assigned,
    and the [with] statement ends without a [logout]. *)
Theorem X4_login_result_must_be_a_pair (s : state) (w : Wrapper) (r : pyval) (e : exn)
    (body : M unit) :
  new_calls s (snd (__enter__ s)) = [EvCall w M_init; EvCall w M_login] ->
  fst (invoke w M_login (snd (invoke w M_init (portal s)))) = Return r ->
  unpack2 r = Raise e ->
  fst (__enter__ s) = Raise e /\
  wrapper (self (snd (__enter__ s))) = Some w /\
  account_dic (self (snd (__enter__ s))) = account_dic (self s) /\
  last_login (self (snd (__enter__ s))) = last_login (self s) /\
  fst (with_ body s) = Raise e /\
  List.filter is_logout_of (new_calls s (snd (with_ body s))) = [].
Proof.
  intros N I U. unfold with_. revert N. rewrite enter_unfold. cbv zeta.
  destruct (flags_settled_directory (self s)) as (Ha & Hl).
  destruct (invoke (built_wrapper _) M_init _) as [[v|e0] p1] eqn:I0.
  2:{ erewrite new_calls_app by reflexivity. discriminate. }
  destruct (invoke (built_wrapper _) M_login p1) as [[r'|e1] p2] eqn:I1.
  - assert (N : forall st : state,
                calls st = (calls s ++ [EvCall (built_wrapper (flags_settled (self s))) M_init;
                                        EvCall (built_wrapper (flags_settled (self s))) M_login])%list ->
                new_calls s st = [EvCall w M_init; EvCall w M_login] ->
                w = built_wrapper (flags_settled (self s))).
    { intros st C N. erewrite new_calls_app in N by exact C. injection N as <-.
      reflexivity. }
    destruct (unpack2 r') as [[a ll]|e2] eqn:U'; intros N0;
      apply N in N0; try reflexivity; subst w;
      rewrite I0 in I; cbn in I; rewrite I1 in I; cbn in I; injection I as ->;
      rewrite U in U'; [discriminate|]. injection U' as <-.
    cbn [fst snd self]. erewrite new_calls_app by reflexivity. cbn. auto 7.
  - erewrite new_calls_app by reflexivity. intros [= <-].
    rewrite I0 in I. cbn in I. rewrite I1 in I. discriminate.
Qed.

(** X5: whatever is done with an instance, entering, leaving and reading
    in any order, its credentials, proxies, TAN flag and logger stay what
    the constructor made them; and once a wrapper is in place there always
    is one: [__exit__] does not remove it, only another [__enter__]
    replaces it. *)
Theorem X5_configuration_is_kept (s : state) (ops : list facade_op) :
  (dkb_user (self (run_ops ops s)) = dkb_user (self s) /\
   dkb_password (self (run_ops ops s)) = dkb_password (self s) /\
   proxies (self (run_ops ops s)) = proxies (self s) /\
   tan_insert (self (run_ops ops s)) = tan_insert (self s) /\
   logger (self (run_ops ops s)) = logger (self s)) /\
  (wrapper (self s) <> None -> wrapper (self (run_ops ops s)) <> None) /\
  (forallb (fun o => negb (is_enter o)) ops = true ->
   wrapper (self (run_ops ops s)) = wrapper (self s)).
Proof.
  assert (settled : forall o : DKBRobo,
            dkb_user (flags_settled o) = dkb_user o /\
            dkb_password (flags_settled o) = dkb_password o /\
            proxies (flags_settled o) = proxies o /\
            tan_insert (flags_settled o) = tan_insert o /\
            logger (flags_settled o) = logger o /\
            wrapper (flags_settled o) = wrapper o).
  { intros o. unfold flags_settled.
    destruct (py_truthy (tan_insert o)); cbn;
      destruct (py_eq_str (mfa_device o) "m"); cbn; auto 7. }
  assert (step : forall o s,
            (dkb_user (self (run_op o s)) = dkb_user (self s) /\
             dkb_password (self (run_op o s)) = dkb_password (self s) /\
             proxies (self (run_op o s)) = proxies (self s) /\
             tan_insert (self (run_op o s)) = tan_insert (self s) /\
             logger (self (run_op o s)) = logger (self s)) /\
            (wrapper (self s) <> None -> wrapper (self (run_op o s)) <> None) /\
            (is_enter o = false -> wrapper (self (run_op o s)) = wrapper (self s))).
  { intros o s0. destruct o as [|args|op]; cbn [run_op is_enter].
    - destruct (settled (self s0)) as (A & B & C & D & E & F).
      rewrite enter_unfold. cbv zeta.
      destruct (invoke _ M_init _) as [[v|e] p1].
      2:{ cbn. rewrite F. repeat split; auto; discriminate. }
      destruct (invoke _ M_login _) as [[r|e] p2].
      2:{ cbn. repeat split; auto; discriminate. }
      destruct (unpack2 r) as [[a ll]|e]; cbn; repeat split; auto; discriminate.
    - rewrite exit_self. repeat split; auto.
    - rewrite read_self. repeat split; auto. }
  revert s. induction ops as [|o ops IH]; intros s.
  - cbn. repeat split; auto.
  - change (run_ops (o :: ops) s) with (run_ops ops (run_op o s)).
    destruct (IH (run_op o s)) as ((A & B & C & D & E) & F & G).
    destruct (step o s) as ((A' & B' & C' & D' & E') & F' & G').
    rewrite A, B, C, D, E. split; [auto|]. split.
    + intros W. apply F, F', W.
    + cbn [forallb]. intros H. apply andb_true_iff in H. destruct H as (Ho & H).
      rewrite (G H). apply G'. destruct (is_enter o); [discriminate|reflexivity].
Qed.

Lemma run_op_keeps_wrapper (o : facade_op) (s : state) :
  wrapper (self s) <> None -> wrapper (self (run_op o s)) <> None.
Proof.
  destruct o as [|args|op]; cbn [run_op].
  - rewrite enter_unfold. cbv zeta.
    assert (F : wrapper (flags_settled (self s)) = wrapper (self s)).
    { unfold flags_settled. destruct (py_truthy (tan_insert (self s))); cbn;
        destruct (py_eq_str (mfa_device (self s)) "m"); reflexivity. }
    destruct (invoke _ M_init _) as [[v|e] p1]; [|cbn; rewrite F; auto].
    destruct (invoke _ M_login _) as [[r|e] p2]; [|cbn; discriminate].
    destruct (unpack2 r) as [[a ll]|e]; cbn; discriminate.
  - rewrite exit_self. auto.
  - rewrite read_self. auto.
Qed.

(** What one step adds to the log, as far as [logout] goes. *)
Lemma run_op_logouts (o : facade_op) (s : state) :
  exists l,
    calls (run_op o s) = (calls s ++ l)%list /\
    List.filter is_logout_of l =
      match o, wrapper (self s) with
      | Exit _, Some w => [EvCall w M_logout]
      | _, _ => []
      end.
Proof.
  destruct o as [|args|op]; cbn [run_op].
  - rewrite enter_unfold. cbv zeta.
    destruct (invoke _ M_init _) as [[v|e] p1]; [|eexists; split; reflexivity].
    destruct (invoke _ M_login _) as [[r|e] p2]; [|eexists; split; reflexivity].
    destruct (unpack2 r) as [[a ll]|e]; eexists; split; reflexivity.
  - rewrite exit_unfold. destruct (wrapper (self s)) as [w|].
    + eexists; split; reflexivity.
    + exists []. rewrite app_nil_r. split; reflexivity.
  - destruct (read_effect op s) as (l & C & _ & R). exists l. split; [exact C|].
    apply reads_are_no_logout. intros w m Hin. apply (R w m Hin).
Qed.

(** X17: [logout] is called by [__exit__] and by nothing else.  From a
    state with a wrapper in place, any sequence of entries, exits and
    reads calls [logout] exactly as many times as it contains exits:
    entering again does not log the previous session out, and leaving
    twice logs out twice. *)
Theorem X17_one_logout_per_exit (s : state) (ops : list facade_op) :
  wrapper (self s) <> None ->
  List.length (List.filter is_logout_of (new_calls s (run_ops ops s))) =
  List.length (List.filter is_exit ops).
Proof.
  intros W.
  enough (G : exists l, calls (run_ops ops s) = (calls s ++ l)%list /\
                        List.length (List.filter is_logout_of l) =
                        List.length (List.filter is_exit ops)).
  { destruct G as (l & C & N). erewrite new_calls_app by exact C. exact N. }
  revert s W. induction ops as [|o ops IH]; intros s W.
  - exists []. cbn. rewrite app_nil_r. auto.
  - change (run_ops (o :: ops) s) with (run_ops ops (run_op o s)).
    destruct (IH (run_op o s) (@run_op_keeps_wrapper o s W)) as (l2 & C2 & N2).
    destruct (run_op_logouts o s) as (l1 & C1 & N1).
    exists (l1 ++ l2)%list. rewrite C2, C1, app_assoc. split; [reflexivity|].
    rewrite filter_app, length_app, N2, N1. cbn [List.filter].
    destruct o as [|args|op]; cbn [is_exit]; try reflexivity.
    destruct (wrapper (self s)); [reflexivity|contradiction].
Qed.

End MoreProperties.

(** * Properties of the command line *)

Section CliProperties.

Context {Logger World : Type} {Util : Utilities Logger} {Cap : Capability Logger World}
        {Con : Console}.
Local Abbreviation Wrapper := (Wrapper Logger).
Local Abbreviation event := (event Logger).
Local Abbreviation DKBRobo := (DKBRobo Logger).
Local Abbreviation state := (state Logger World).
Local Abbreviation M := (M Logger World).
Local Abbreviation cli_state := (cli_state Logger World).
Local Abbreviation C := (C Logger World).

(** ** Pieces of commands that only read *)

Lemma reads_only_same {A : Type} (b : C A) :
  (forall c, dkb (snd (b c)) = dkb c) -> reads_only b.
Proof.
  intros E c. rewrite E. split; [reflexivity|]. exists [].
  rewrite app_nil_r. split; [reflexivity|]. intros w m [].
Qed.

Lemma reads_only_cret {A : Type} (a : A) : @reads_only Logger World A (cret a).
Proof. apply reads_only_same. reflexivity. Qed.

Lemma reads_only_clift {A : Type} (o : outcome A) :
  @reads_only Logger World A (clift o).
Proof. apply reads_only_same. reflexivity. Qed.

Lemma reads_only_perform (o : output) :
  @reads_only Logger World unit (perform o).
Proof. apply reads_only_same. reflexivity. Qed.

Lemma reads_only_attr {A : Type} (f : DKBRobo -> A) : @reads_only Logger World A (method_call (attr f)).
Proof. apply reads_only_same. intros [s o]. destruct s. reflexivity. Qed.

Lemma reads_only_cbind {A B : Type} (m : C A) (k : A -> C B) :
  reads_only m -> (forall a, reads_only (k a)) -> reads_only (cbind m k).
Proof.
  intros Hm Hk c. unfold cbind. destruct (Hm c) as (W1 & l1 & C1 & R1).
  destruct (m c) as [[a|e] c1]; cbn [snd] in *.
  - destruct (Hk a c1) as (W2 & l2 & C2 & R2). split; [congruence|].
    exists (l1 ++ l2)%list. rewrite C2, C1, app_assoc. split; [reflexivity|].
    intros w m0 Hin. apply in_app_or in Hin. destruct Hin; eauto.
  - split; [exact W1|]. exists l1. auto.
Qed.

Lemma reads_only_read (op : read_op) : @reads_only Logger World pyval (method_call (run_read op)).
Proof.
  intros c. unfold method_call. destruct (read_effect op (dkb c)) as (l & C1 & S1 & R1).
  destruct (run_read op (dkb c)) as [r s1]. cbn [fst snd dkb] in *.
  rewrite S1. split; [reflexivity|]. exists l. split; [exact C1|].
  intros w m Hin. apply (R1 w m Hin).
Qed.

Lemma reads_only_set_directory (v : pyval) :
  @reads_only Logger World unit (method_call (assign (set_account_dic v))).
Proof.
  intros c. unfold method_call, assign. cbn. split; [reflexivity|]. exists [].
  rewrite app_nil_r. split; [reflexivity|]. intros w m [].
Qed.

Lemma reads_only_format (f : formatter) (data : pyval) : @reads_only Logger World unit (run_format f data).
Proof.
  destruct f; cbn [run_format]; try apply reads_only_perform.
  unfold format_csv. apply reads_only_cbind; [apply reads_only_clift|].
  intros n.
  assert (rest : @reads_only Logger World unit
            (cbind (clift (py_getitem_0 data))
               (fun first =>
                  cbind (clift (py_keys first))
                    (fun fieldnames =>
                       cbind (perform (CsvHeader fieldnames))
                         (fun _ => perform (CsvRows data)))))).
  { apply reads_only_cbind; [apply reads_only_clift|]. intros first.
    apply reads_only_cbind; [apply reads_only_clift|]. intros fieldnames.
    apply reads_only_cbind; [apply reads_only_perform|]. intros _.
    apply reads_only_perform. }
  destruct n as [| |z| | | |]; try exact rest.
  destruct z; [apply reads_only_cret|exact rest|exact rest].
Qed.

Lemma command_body_reads_only (ctx : context) (cmd : cli_command) (b : C unit) :
  command_body ctx cmd = Some b -> reads_only b.
Proof.
  assert (tx : forall key wanted name account ty f t,
            reads_only (transactions_body ctx key wanted name account ty f t)).
  { intros. unfold transactions_body.
    apply reads_only_cbind; [apply reads_only_attr|]. intros d.
    apply reads_only_cbind; [apply reads_only_clift|]. intros values.
    apply reads_only_cbind; [apply reads_only_clift|]. intros [|acct rest].
    - apply reads_only_perform.
    - apply reads_only_cbind; [apply reads_only_clift|]. intros u.
      apply reads_only_cbind; [apply reads_only_clift|]. intros a.
      apply reads_only_cbind;
        [apply (reads_only_read (Get_transactions u a f t ty))|].
      intros l. apply reads_only_format. }
  destruct cmd as [|[n|] [a|] ty f t| | |]; cbn; intros E; try discriminate;
    injection E as <-; try apply tx.
  - unfold accounts_body.
    apply reads_only_cbind; [apply reads_only_attr|]. intros d.
    apply reads_only_cbind; [apply reads_only_clift|]. intros entries.
    apply reads_only_cbind; [apply reads_only_set_directory|]. intros _.
    apply reads_only_cbind; [apply reads_only_clift|]. intros _.
    apply reads_only_cbind; [apply reads_only_attr|]. intros d'.
    apply reads_only_cbind; [apply reads_only_clift|]. intros values.
    apply reads_only_format.
  - unfold last_login_body.
    apply reads_only_cbind; [apply reads_only_attr|]. intros ll.
    apply reads_only_format.
  - unfold credit_limits_body.
    apply reads_only_cbind; [apply (reads_only_read Get_credit_limits)|]. intros l.
    apply reads_only_cbind; [apply reads_only_clift|]. intros items.
    apply reads_only_format.
  - unfold standing_orders_body.
    apply reads_only_cbind; [apply (reads_only_read (Get_standing_orders PyNone))|].
    intros l. apply reads_only_format.
Qed.

Lemma run_command_scoped (ctx : context) (cmd : cli_command) (b : C unit) (p : World) :
  command_body ctx cmd = Some b -> run_command ctx cmd p = scoped ctx b p.
Proof.
  destruct cmd as [|[n|] [a|] ty f t| | |]; cbn; intros E; try discriminate;
    injection E as <-; reflexivity.
Qed.

Lemma enter_installs (s : state) :
  fst (__enter__ s) = Return tt ->
  exists w, wrapper (self (snd (__enter__ s))) = Some w.
Proof.
  rewrite enter_unfold. cbv zeta.
  destruct (invoke _ M_init _) as [[v|e] p1]; [|discriminate].
  destruct (invoke _ M_login _) as [[r|e] p2]; [|discriminate].
  destruct (unpack2 r) as [[a ll]|e]; [|discriminate].
  intros _. eexists. reflexivity.
Qed.


(** X6: the instance the command line builds.  [_login] hands the debug
    option to the parameter [legacy_login], so [logger_setup] is always
    called with [False], no device selector is set, and on entry the
    Legacy wrapper is built when [--use-tan] or [--debug] is given and the
    API wrapper otherwise. *)
Theorem X6_debug_option_selects_legacy (username password use_tan debug' : pyval) (p : World) :
  calls (_login username password use_tan debug' p) = [EvLoggerSetup (PyBool false)] /\
  logger (self (_login username password use_tan debug' p)) =
    Some (logger_setup (PyBool false)) /\
  exists rest,
    new_calls (_login username password use_tan debug' p)
              (snd (__enter__ (_login username password use_tan debug' p))) =
    EvCall (if py_truthy use_tan || py_truthy debug'
            then LegacyWrapper username password use_tan (PyDict [])
                   (Some (logger_setup (PyBool false)))
            else ApiWrapper username password (PyDict []) PyNone
                   (Some (logger_setup (PyBool false))))
           M_init :: rest.
Proof.
  split; [reflexivity|]. split; [reflexivity|].
  assert (W : built_wrapper (flags_settled (self (_login username password use_tan debug' p)))
              = if py_truthy use_tan || py_truthy debug'
                then LegacyWrapper username password use_tan (PyDict [])
                       (Some (logger_setup (PyBool false)))
                else ApiWrapper username password (PyDict []) PyNone
                       (Some (logger_setup (PyBool false)))).
  { unfold built_wrapper, flags_settled, _login, DKBRobo_new. cbn.
    destruct (py_truthy use_tan); cbn; [reflexivity|].
    destruct (py_truthy debug'); reflexivity. }
  rewrite <- W. rewrite enter_unfold. cbv zeta.
  destruct (invoke _ M_init _) as [[v|e] p1].
  2:{ eexists. apply new_calls_app. reflexivity. }
  destruct (invoke _ M_login _) as [[r|e] p2].
  2:{ eexists. apply new_calls_app. reflexivity. }
  destruct (unpack2 r) as [[a ll]|e]; eexists; apply new_calls_app; reflexivity.
Qed.


(** X8: a command whose login succeeds logs out, exactly once and as the
    last call to the wrapper, however its body ends: by an error of a
    read, of a missing key, of the console, or normally.  Between login
    and logout the command calls read methods only. *)
Theorem X8_every_command_logs_out (ctx : context) (cmd : cli_command) (p : World) :
  command_body ctx cmd <> None ->
  fst (__enter__ (_login (USERNAME ctx) (PASSWORD ctx) (USE_TAN ctx) (DEBUG ctx) p)) =
    Return tt ->
  exists w l,
    wrapper (self (snd (__enter__
       (_login (USERNAME ctx) (PASSWORD ctx) (USE_TAN ctx) (DEBUG ctx) p)))) = Some w /\
    calls (dkb (snd (run_command ctx cmd p))) =
      (calls (snd (__enter__
          (_login (USERNAME ctx) (PASSWORD ctx) (USE_TAN ctx) (DEBUG ctx) p)))
       ++ l ++ [EvCall w M_logout])%list /\
    List.filter is_logout_of l = [] /\
    forall w' m, In (EvCall w' m) l -> is_read_method m = true.
Proof.
  intros B E. destruct (command_body ctx cmd) as [b|] eqn:Hb; [|contradiction].
  rewrite (run_command_scoped ctx cmd p Hb).
  destruct (enter_installs _ E) as (w & W). exists w.
  pose proof (command_body_reads_only ctx cmd Hb) as T.
  unfold scoped, cli_with, method_call. cbn [dkb written].
  destruct (__enter__ _) as [r s1]. cbn [fst snd] in *. subst r.
  destruct (T (mk_cli s1 [])) as (W2 & l & C2 & R2). exists l.
  destruct (b (mk_cli s1 [])) as [r c2]. cbn [fst snd dkb] in *.
  split; [exact W|].
  assert (L : List.filter is_logout_of l = []).
  { apply reads_are_no_logout. exact R2. }
  rewrite exit_unfold, W2, W.
  destruct (invoke w M_logout (portal (dkb c2))) as [[x|e'] p3]; cbn [fst snd].
  - destruct r as [[]|e]; cbn [py_truthy].
    + cbn. rewrite C2, <- app_assoc. auto.
    + destruct (is_DKBRoboError e); cbn; rewrite C2, <- app_assoc; auto.
  - destruct (is_DKBRoboError e'); cbn; rewrite C2, <- app_assoc; auto.
Qed.

(** ** Records and their keys *)

Lemma is_key_true (key : string) (e : pyval * pyval) :
  is_key key e = true -> fst e = PyStr key.
Proof.
  unfold is_key, py_eq_str. destruct (fst e); try discriminate.
  intros E. apply String.eqb_eq in E. subst. reflexivity.
Qed.

Lemma is_key_other (key key' : string) (e : pyval * pyval) :
  key <> key' -> is_key key e = true -> is_key key' e = false.
Proof.
  intros N E. apply is_key_true in E. unfold is_key. rewrite E. cbn.
  apply String.eqb_neq. exact N.
Qed.

Lemma filter_twice {A : Type} (f g : A -> bool) (l : list A) :
  List.filter g (List.filter f l) = List.filter (fun x => f x && g x) l.
Proof.
  induction l as [|x l IH]; [reflexivity|]. cbn.
  destruct (f x); cbn; [destruct (g x)|]; rewrite IH; reflexivity.
Qed.

Lemma existsb_filter_other (key key' : string) (d : list (pyval * pyval)) :
  key <> key' ->
  List.existsb (is_key key') (List.filter (fun e => negb (is_key key e)) d) =
  List.existsb (is_key key') d.
Proof.
  intros N. induction d as [|e d IH]; [reflexivity|]. cbn.
  destruct (is_key key e) eqn:K; cbn.
  - rewrite (is_key_other e N K). exact IH.
  - rewrite IH. reflexivity.
Qed.


Lemma strip_one (v : pyval) :
  strippable v = true ->
  exists v1, py_delitem_str v "details" = Return v1 /\
             py_delitem_str v1 "transactions" = Return (stripped v).
Proof.
  unfold strippable. destruct v as [| | | | | |d]; cbn; try discriminate.
  intros H. apply andb_true_iff in H. destruct H as (D & T). rewrite D.
  eexists. split; [reflexivity|]. cbn.
  rewrite (@existsb_filter_other "details" "transactions" d) by discriminate.
  rewrite T, filter_twice. reflexivity.
Qed.


Lemma strip_records_all (d : list (pyval * pyval)) :
  forallb (fun kv => strippable (snd kv)) d = true ->
  strip_records d = (Return tt, List.map (fun kv => (fst kv, stripped (snd kv))) d).
Proof.
  induction d as [|[k v] d IH]; [reflexivity|]. cbn [forallb snd fst List.map].
  intros H. apply andb_true_iff in H. destruct H as (S & H).
  destruct (strip_one v S) as (v1 & D1 & D2).
  cbn [strip_records]. rewrite D1, D2, (IH H). reflexivity.
Qed.


(** X9: the body of [accounts] on a directory whose records all have the
    keys [details] and [transactions].  The formatter gets the records in
    the order of the directory, each without these two keys and otherwise
    unchanged; and the directory of the instance itself now holds the
    records in that reduced form. *)
Theorem X9_accounts_strips_the_directory (ctx : context) (c : cli_state)
    (d : list (pyval * pyval)) :
  account_dic (self (dkb c)) = PyDict d ->
  forallb (fun kv => strippable (snd kv)) d = true ->
  accounts_body ctx c =
    run_format (FORMAT ctx) (PyList (List.map (fun kv => stripped (snd kv)) d))
      (mk_cli (mk_state
                 (set_account_dic
                    (PyDict (List.map (fun kv => (fst kv, stripped (snd kv))) d))
                    (self (dkb c)))
                 (portal (dkb c)) (calls (dkb c)))
              (written c)) /\
  (forall v, has_key "details" (stripped v) = false /\
             has_key "transactions" (stripped v) = false) /\
  (forall v key, key <> "details" -> key <> "transactions" ->
     py_getitem_str (stripped v) key = py_getitem_str v key).
Proof.
  intros A S. split; [|split].
  - unfold accounts_body, cbind, method_call, attr, assign, clift.
    cbn [dkb written self portal calls fst snd]. rewrite A. cbn [py_items].
    rewrite (strip_records_all d S). cbn [fst snd account_dic set_account_dic py_values].
    rewrite List.map_map. reflexivity.
  - intros v. destruct v as [| | | | | |e]; cbn; auto.
    split; induction e as [|x e IH]; cbn; try reflexivity.
    + destruct (is_key "details" x) eqn:K; cbn; [exact IH|].
      destruct (is_key "transactions" x) eqn:K'; cbn; [exact IH|].
      rewrite K. exact IH.
    + destruct (is_key "details" x) eqn:K; cbn; [exact IH|].
      destruct (is_key "transactions" x) eqn:K'; cbn; [exact IH|].
      rewrite K'. exact IH.
  - intros v key N1 N2. destruct v as [| | | | | |e]; cbn; try reflexivity.
    assert (F : List.find (is_key key)
                  (List.filter
                     (fun x => negb (is_key "details" x) && negb (is_key "transactions" x)) e)
                = List.find (is_key key) e).
    { induction e as [|x e IH]; [reflexivity|]. cbn.
      destruct (is_key key x) eqn:K.
      - rewrite (is_key_other x N1 K), (is_key_other x N2 K). cbn. rewrite K. reflexivity.
      - destruct (negb (is_key "details" x) && negb (is_key "transactions" x)); cbn;
          [rewrite K|]; exact IH. }
    rewrite F. reflexivity.
Qed.


(** ** Choosing the account *)

Lemma getitem_has_key (key : string) (v : pyval) :
  has_key key v = true -> exists x, py_getitem_str v key = Return x.
Proof.
  destruct v as [| | | | | |d]; cbn; try discriminate.
  induction d as [|e d IH]; cbn; [discriminate|].
  destruct (is_key key e) eqn:K; cbn.
  - intros _. destruct e as [k x]. eexists. reflexivity.
  - exact IH.
Qed.

Lemma getitem_no_key (key : string) (v : pyval) :
  has_key key v = false ->
  exists e, py_getitem_str v key = Raise e /\ is_DKBRoboError e = false.
Proof.
  destruct v as [| | | | | |d]; cbn; try (intros _; eexists; split; reflexivity).
  induction d as [|e d IH]; cbn; [intros _; eexists; split; reflexivity|].
  destruct (is_key key e) eqn:K; cbn; [discriminate|exact IH].
Qed.

(** X11: how [transactions] picks among the accounts.  If every account
    of the directory is a dict with the field compared, the candidates are
    the accounts whose field equals the option, in the order of the
    directory.  If a single account lacks the field, the lookup fails with
    a [KeyError] or [TypeError], whether or not another account would have
    matched. *)
Theorem X11_account_lookup (key wanted : string) (accts : list pyval) :
  (forallb (has_key key) accts = true ->
   filter_accounts key wanted accts = Return (List.filter (field_is key wanted) accts)) /\
  (forallb (has_key key) accts = false ->
   exists e, filter_accounts key wanted accts = Raise e /\ is_DKBRoboError e = false).
Proof.
  split.
  - induction accts as [|a l IH]; [reflexivity|]. cbn [forallb]. intros H.
    apply andb_true_iff in H. destruct H as (K & H).
    destruct (getitem_has_key key a K) as (x & G).
    cbn [filter_accounts List.filter]. unfold field_is at 1. rewrite G, (IH H).
    reflexivity.
  - induction accts as [|a l IH]; [discriminate|]. cbn [forallb].
    destruct (has_key key a) eqn:K; cbn [andb].
    + intros H. destruct (IH H) as (e & F & N).
      destruct (getitem_has_key key a K) as (x & G).
      cbn [filter_accounts]. rewrite G, F. eauto.
    + intros _. destruct (getitem_no_key key a K) as (e & G & N).
      cbn [filter_accounts]. rewrite G. eauto.
Qed.

(** X12: [transactions] when no account matches.  When the lookup in the
    directory comes back empty, the body echoes the message to the error
    stream and does nothing else: the instance and the world are as they
    were, no date is validated and no transaction is fetched. *)
Theorem X12_no_matching_account (ctx : context) (key wanted : string)
    (name account : option string) (ty f t : pyval) (c : cli_state)
    (d : list (pyval * pyval)) :
  account_dic (self (dkb c)) = PyDict d ->
  filter_accounts key wanted (List.map snd d) = Return [] ->
  transactions_body ctx key wanted name account ty f t c =
    (library (EchoErr ("No account found matching '" ++ name_or_account name account ++ "'")),
     mk_cli (dkb c)
       (written c ++
        [EchoErr ("No account found matching '" ++ name_or_account name account ++ "'")])).
Proof.
  intros A F. unfold transactions_body, cbind, method_call, attr, clift.
  cbn [dkb written self fst snd]. rewrite A. cbn [py_values]. rewrite F.
  destruct c as [s o]. destruct s. reflexivity.
Qed.

(** X13: [transactions] when accounts match.  The first candidate of the
    lookup is the account; its fields [transactions] and [type] and the
    two dates go to [get_transactions] of the instance; what that returns
    goes to the formatter, and what it raises ends the body with nothing
    written. *)
Theorem X13_first_match_is_fetched (ctx : context) (key wanted : string)
    (name account : option string) (ty f t : pyval) (c : cli_state)
    (d : list (pyval * pyval)) (acct u a : pyval) (rest : list pyval) :
  account_dic (self (dkb c)) = PyDict d ->
  filter_accounts key wanted (List.map snd d) = Return (acct :: rest) ->
  py_getitem_str acct "transactions" = Return u ->
  py_getitem_str acct "type" = Return a ->
  transactions_body ctx key wanted name account ty f t c =
    match get_transactions u a f t ty (dkb c) with
    | (Return l, s) => run_format (FORMAT ctx) l (mk_cli s (written c))
    | (Raise e, s) => (Raise e, mk_cli s (written c))
    end.
Proof.
  intros A F U T. unfold transactions_body, cbind, method_call, attr, clift.
  cbn [dkb written self fst snd]. rewrite A. cbn [py_values]. rewrite F, U, T.
  destruct c as [s o]. destruct s as [o' p' l']. cbn [dkb written].
  destruct (get_transactions u a f t ty _) as [[l|e] s']; reflexivity.
Qed.

(** X14: the [csv] formatter.  Data of length 0 writes nothing at all, not
    even a header.  For a list that starts with a dict, the header is the
    keys of that first record alone, and the rows follow if the header
    went through.  For a list that starts with anything else the
    formatter fails before it writes. *)
Theorem X14_csv_header_comes_from_the_first_record (c : cli_state) :
  (forall data, py_len data = Return (PyInt 0) ->
     run_format Fmt_csv data c = (Return tt, c)) /\
  (forall d rest,
     written (snd (run_format Fmt_csv (PyList (PyDict d :: rest)) c)) =
       (written c ++
        CsvHeader (List.map fst d) ::
        match library (CsvHeader (List.map fst d)) with
        | Return _ => [CsvRows (PyList (PyDict d :: rest))]
        | Raise _ => []
        end)%list) /\
  (forall x rest e, py_keys x = Raise e ->
     run_format Fmt_csv (PyList (x :: rest)) c = (Raise e, c)).
Proof.
  split; [|split].
  - intros data L. cbn [run_format]. unfold format_csv, cbind, clift, cret.
    rewrite L. reflexivity.
  - intros d rest. cbn [run_format]. unfold format_csv, cbind, clift, perform.
    cbn [py_len List.length Z.of_nat py_getitem_0 py_keys written dkb].
    destruct (Pos.of_succ_nat (List.length rest)); cbn;
      destruct (library (CsvHeader (List.map fst d))); cbn;
      rewrite <- ?app_assoc; reflexivity.
  - intros x rest e K. cbn [run_format]. unfold format_csv, cbind, clift.
    cbn [py_len List.length Z.of_nat py_getitem_0]. rewrite K.
    destruct (Pos.of_succ_nat (List.length rest)); reflexivity.
Qed.

(** ** What the commands ask of the wrapper *)

Lemma format_keeps_instance (f : formatter) (data : pyval) (c : cli_state) :
  dkb (snd (run_format f data c)) = dkb c.
Proof.
  destruct f; cbn [run_format]; try reflexivity.
  unfold format_csv, cbind, clift, cret, perform.
  destruct (py_len data) as [n|e]; [|reflexivity].
  assert (rest :
    dkb (snd (match py_getitem_0 data with
              | Return first =>
                  match py_keys first with
                  | Return fieldnames =>
                      match library (CsvHeader fieldnames) with
                      | Return _ =>
                          (library (CsvRows data),
                           mk_cli (dkb c) ((written c ++ [CsvHeader fieldnames]) ++
                                           [CsvRows data]))
                      | Raise e1 =>
                          (Raise e1, mk_cli (dkb c) (written c ++ [CsvHeader fieldnames]))
                      end
                  | Raise e0 => (Raise e0, c)
                  end
              | Raise e => (Raise e, c)
              end)) = dkb c).
  { destruct (py_getitem_0 data) as [first|e]; [|reflexivity].
    destruct (py_keys first) as [fieldnames|e]; [|reflexivity].
    destruct (library (CsvHeader fieldnames)); reflexivity. }
  destruct n as [| |z| | | |]; cbn [fst snd dkb written];
    try (destruct (py_getitem_0 data) as [first|e]; [|reflexivity];
         destruct (py_keys first) as [fieldnames|e]; [|reflexivity];
         cbn [dkb written];
         destruct (library (CsvHeader fieldnames)); reflexivity).
  destruct z; cbn [fst snd dkb written]; try reflexivity;
    (destruct (py_getitem_0 data) as [first|e]; [|reflexivity];
     destruct (py_keys first) as [fieldnames|e]; [|reflexivity];
     cbn [dkb written];
     destruct (library (CsvHeader fieldnames)); reflexivity).
Qed.

(** X15: [credit-limits] in the [csv] format.  When the wrapper returns a
    dict of limits, the header is [account], [limit] whatever the keys of
    that dict are, the rows are one record per limit in the order of the
    dict, and for an empty dict nothing is written, not even the header.
    When the wrapper returns something that is not a dict, the command
    body fails with an [AttributeError] and writes nothing. *)
Theorem X15_credit_limits_as_csv (ctx : context) (c : cli_state) (v : pyval) :
  fst (get_credit_limits (dkb c)) = Return v ->
  (forall d, FORMAT ctx = Fmt_csv -> v = PyDict d ->
     written (snd (credit_limits_body ctx c)) =
       (written c ++
        match d with
        | [] => []
        | _ :: _ =>
            CsvHeader [PyStr "account"; PyStr "limit"] ::
            match library (CsvHeader [PyStr "account"; PyStr "limit"]) with
            | Return _ => [CsvRows (PyList (limit_rows d))]
            | Raise _ => []
            end
        end)%list) /\
  (forall e, py_items v = Raise e ->
     credit_limits_body ctx c =
       (Raise e, mk_cli (snd (get_credit_limits (dkb c))) (written c))).
Proof.
  intros G. unfold credit_limits_body, cbind, method_call, clift.
  destruct (get_credit_limits (dkb c)) as [r s']. cbn [fst snd] in *. subst r. split.
  - intros d F ->. cbn [py_items]. rewrite F. cbn [run_format].
    unfold format_csv, cbind, clift, cret, perform.
    destruct d as [|kv d]; cbn; [rewrite app_nil_r; reflexivity|].
    destruct (Pos.of_succ_nat (List.length (limit_rows d))); cbn;
      destruct (library (CsvHeader [PyStr "account"; PyStr "limit"])); cbn;
      rewrite <- ?app_assoc; reflexivity.
  - intros e I. rewrite I. reflexivity.
Qed.

(** X16: what the commands ask of the bank between login and logout.
    With a logger and a wrapper in place, the bodies of [accounts] and
    [last-login] call no wrapper method at all: they work on what the
    login returned.  The body of [credit-limits] makes the one call
    [get_credit_limits], that of [standing-orders] the one call
    [get_standing_orders] with no [uid]. *)
Theorem X16_round_trips_of_the_commands (ctx : context) (c : cli_state) (lg : Logger)
    (w : Wrapper) :
  logger (self (dkb c)) = Some lg ->
  wrapper (self (dkb c)) = Some w ->
  wrapper_calls (new_calls (dkb c) (dkb (snd (accounts_body ctx c)))) = [] /\
  wrapper_calls (new_calls (dkb c) (dkb (snd (last_login_body ctx c)))) = [] /\
  wrapper_calls (new_calls (dkb c) (dkb (snd (credit_limits_body ctx c)))) =
    [EvCall w M_get_credit_limits] /\
  wrapper_calls (new_calls (dkb c) (dkb (snd (standing_orders_body ctx c)))) =
    [EvCall w (M_get_standing_orders PyNone)].
Proof.
  intros L W.
  assert (same : forall s : state, calls s = calls (dkb c) ->
            wrapper_calls (new_calls (dkb c) s) = []).
  { intros s E. erewrite new_calls_app by (rewrite E; symmetry; apply app_nil_r).
    reflexivity. }
  assert (plain : forall fmt name m (k : pyval -> C unit),
            (forall v c', dkb (snd (k v c')) = dkb c') ->
            wrapper_calls
              (new_calls (dkb c)
                 (dkb (snd (cbind (method_call (debug fmt [] ;;; w <- wrapper_attr name ;; call w m)%py) k c)))) =
            [EvCall w m]).
  { intros fmt name m k K. unfold cbind, method_call. rewrite plain_read_unfold.
    unfold plain_read. rewrite L, W.
    destruct (invoke w m (portal (dkb c))) as [[v|e] p']; cbn [fst snd dkb written];
      [rewrite K; cbn [dkb]|]; erewrite new_calls_app by reflexivity; reflexivity. }
  split; [|split; [|split]].
  - apply same. unfold accounts_body, cbind, method_call, attr, assign, clift.
    cbn [dkb written self portal calls fst snd].
    destruct (py_items (account_dic (self (dkb c)))) as [entries|e]; [|destruct c as [s o]; destruct s; reflexivity].
    cbn [dkb written self portal calls fst snd].
    destruct (fst (strip_records entries)) as [[]|e]; [|reflexivity].
    cbn [dkb written self portal calls fst snd account_dic set_account_dic].
    cbn [py_values]. rewrite format_keeps_instance. reflexivity.
  - apply same. unfold last_login_body, cbind, method_call, attr.
    cbn [dkb written fst snd]. rewrite format_keeps_instance.
    destruct c as [s o]. destruct s. reflexivity.
  - unfold credit_limits_body, get_credit_limits. apply plain.
    intros v c'. unfold cbind, clift.
    destruct (py_items v); [apply format_keeps_instance|reflexivity].
  - unfold standing_orders_body, get_standing_orders. apply plain.
    intros v c'. apply format_keeps_instance.
Qed.

End CliProperties.

(** * The further properties on the scripted portal *)

Section MoreScenarios.

#[local] Existing Instance Demo.utilities.
#[local] Existing Instance Demo.capability.
#[local] Existing Instance DemoCli.console.

Import DemoCli.

(** X1 on a new instance. *)
Lemma X1_witness :
  wrapper (self (Demo.api_user Demo.good_day)) = None /\
  (__exit__ [] (Demo.api_user Demo.good_day) =
     (Raise (no_attribute "logout"), Demo.api_user Demo.good_day) /\
   (exists e, fst (run_read Demo.booked_2024 (Demo.api_user Demo.good_day)) = Raise e) /\
   wrapper_calls
     (new_calls (Demo.api_user Demo.good_day)
        (snd (run_read Demo.booked_2024 (Demo.api_user Demo.good_day)))) = [] /\
   portal (snd (run_read Demo.booked_2024 (Demo.api_user Demo.good_day))) =
     portal (Demo.api_user Demo.good_day) /\
   self (snd (run_read Demo.booked_2024 (Demo.api_user Demo.good_day))) =
     self (Demo.api_user Demo.good_day)).
Proof.
  assert (W : wrapper (self (Demo.api_user Demo.good_day)) = None) by reflexivity.
  split; [exact W|].
  exact (X1_use_before_entry_fails (Demo.api_user Demo.good_day) Demo.booked_2024 [] W).
Defined.

(** X2 on the standing orders of one account in an API session. *)
Lemma X2_witness :
  logger (self entered) = Some false /\
  wrapper (self entered) = Some Demo.api_wrapper /\
  plain_method (Get_standing_orders (PyStr "DE01")) =
    Some (M_get_standing_orders (PyStr "DE01")) /\
  (fst (run_read (Get_standing_orders (PyStr "DE01")) entered) =
     fst (invoke Demo.api_wrapper (M_get_standing_orders (PyStr "DE01")) (portal entered)) /\
   portal (snd (run_read (Get_standing_orders (PyStr "DE01")) entered)) =
     snd (invoke Demo.api_wrapper (M_get_standing_orders (PyStr "DE01")) (portal entered)) /\
   wrapper_calls
     (new_calls entered (snd (run_read (Get_standing_orders (PyStr "DE01")) entered))) =
     [EvCall Demo.api_wrapper (M_get_standing_orders (PyStr "DE01"))] /\
   self (snd (run_read (Get_standing_orders (PyStr "DE01")) entered)) = self entered).
Proof.
  assert (L : logger (self entered) = Some false) by reflexivity.
  assert (W : wrapper (self entered) = Some Demo.api_wrapper) by reflexivity.
  split; [exact L|]. split; [exact W|]. split; [reflexivity|].
  exact (@X2_plain_reads_pass_through _ _ _ _ entered (Get_standing_orders (PyStr "DE01"))
           false Demo.api_wrapper (M_get_standing_orders (PyStr "DE01")) L W eq_refl).
Defined.

(** X5 on an API session that is read from and left. *)
Lemma X5_witness :
  (dkb_user (self (run_ops [Op Get_points; Exit []] entered)) = dkb_user (self entered) /\
   dkb_password (self (run_ops [Op Get_points; Exit []] entered)) =
     dkb_password (self entered) /\
   proxies (self (run_ops [Op Get_points; Exit []] entered)) = proxies (self entered) /\
   tan_insert (self (run_ops [Op Get_points; Exit []] entered)) =
     tan_insert (self entered) /\
   logger (self (run_ops [Op Get_points; Exit []] entered)) = logger (self entered)) /\
  (wrapper (self entered) <> None /\
   wrapper (self (run_ops [Op Get_points; Exit []] entered)) <> None) /\
  (forallb (fun o => negb (is_enter o)) [Op Get_points; Exit []] = true /\
   wrapper (self (run_ops [Op Get_points; Exit []] entered)) = wrapper (self entered)).
Proof.
  assert (W : wrapper (self entered) <> None) by (vm_compute; discriminate).
  split; [exact (proj1 (X5_configuration_is_kept entered [Op Get_points; Exit []]))|].
  split.
  - split; [exact W|].
    exact (proj1 (proj2 (X5_configuration_is_kept entered [Op Get_points; Exit []])) W).
  - split; [reflexivity|].
    exact (proj2 (proj2 (X5_configuration_is_kept entered [Op Get_points; Exit []]))
             eq_refl).
Defined.

(** X6 with [--debug] alone. *)
Lemma X6_witness :
  calls (_login Demo.user Demo.password (PyBool false) (PyBool true) Demo.good_day) =
    [EvLoggerSetup (PyBool false)] /\
  logger (self (_login Demo.user Demo.password (PyBool false) (PyBool true) Demo.good_day)) =
    Some (logger_setup (PyBool false)) /\
  exists rest,
    new_calls (_login Demo.user Demo.password (PyBool false) (PyBool true) Demo.good_day)
      (snd (__enter__
              (_login Demo.user Demo.password (PyBool false) (PyBool true) Demo.good_day))) =
    EvCall (if py_truthy (PyBool false) || py_truthy (PyBool true)
            then LegacyWrapper Demo.user Demo.password (PyBool false) (PyDict [])
                   (Some (logger_setup (PyBool false)))
            else ApiWrapper Demo.user Demo.password (PyDict []) PyNone
                   (Some (logger_setup (PyBool false))))
           M_init :: rest.
Proof.
  exact (X6_debug_option_selects_legacy Demo.user Demo.password (PyBool false)
           (PyBool true) Demo.good_day).
Defined.


(** X8 on [transactions --name checking]. *)
Lemma X8_witness :
  command_body (plain_ctx Fmt_json)
    (Transactions (Some "checking") None (PyStr "booked") (PyStr "01.01.2024")
       (PyStr "01.03.2024")) <> None /\
  fst (__enter__ (_login (USERNAME (plain_ctx Fmt_json)) (PASSWORD (plain_ctx Fmt_json))
                    (USE_TAN (plain_ctx Fmt_json)) (DEBUG (plain_ctx Fmt_json))
                    Demo.good_day)) = Return tt /\
  exists w l,
    wrapper (self (snd (__enter__
       (_login (USERNAME (plain_ctx Fmt_json)) (PASSWORD (plain_ctx Fmt_json))
          (USE_TAN (plain_ctx Fmt_json)) (DEBUG (plain_ctx Fmt_json)) Demo.good_day)))) =
      Some w /\
    calls (dkb (snd (run_command (plain_ctx Fmt_json)
                       (Transactions (Some "checking") None (PyStr "booked")
                          (PyStr "01.01.2024") (PyStr "01.03.2024")) Demo.good_day))) =
      (calls (snd (__enter__
          (_login (USERNAME (plain_ctx Fmt_json)) (PASSWORD (plain_ctx Fmt_json))
             (USE_TAN (plain_ctx Fmt_json)) (DEBUG (plain_ctx Fmt_json)) Demo.good_day)))
       ++ l ++ [EvCall w M_logout])%list /\
    List.filter is_logout_of l = [] /\
    forall w' m, In (EvCall w' m) l -> is_read_method m = true.
Proof.
  assert (B : command_body (plain_ctx Fmt_json)
                (Transactions (Some "checking") None (PyStr "booked") (PyStr "01.01.2024")
                   (PyStr "01.03.2024")) <> None) by discriminate.
  assert (E : fst (__enter__ (_login (USERNAME (plain_ctx Fmt_json))
                                (PASSWORD (plain_ctx Fmt_json))
                                (USE_TAN (plain_ctx Fmt_json)) (DEBUG (plain_ctx Fmt_json))
                                Demo.good_day)) = Return tt) by reflexivity.
  split; [exact B|]. split; [exact E|].
  exact (X8_every_command_logs_out (plain_ctx Fmt_json)
           (Transactions (Some "checking") None (PyStr "booked") (PyStr "01.01.2024")
              (PyStr "01.03.2024")) Demo.good_day B E).
Defined.

(** X9 on the directory of the scripted portal. *)
Lemma X9_witness :
  account_dic (self (dkb entered_cli)) = PyDict account_entries /\
  forallb (fun kv => strippable (snd kv)) account_entries = true /\
  accounts_body (plain_ctx Fmt_table) entered_cli =
    run_format (FORMAT (plain_ctx Fmt_table))
      (PyList (List.map (fun kv => stripped (snd kv)) account_entries))
      (mk_cli (mk_state
                 (set_account_dic
                    (PyDict (List.map (fun kv => (fst kv, stripped (snd kv))) account_entries))
                    (self (dkb entered_cli)))
                 (portal (dkb entered_cli)) (calls (dkb entered_cli)))
              (written entered_cli)) /\
  (forall v, has_key "details" (stripped v) = false /\
             has_key "transactions" (stripped v) = false) /\
  (forall v key, key <> "details" -> key <> "transactions" ->
     py_getitem_str (stripped v) key = py_getitem_str v key).
Proof.
  assert (A : account_dic (self (dkb entered_cli)) = PyDict account_entries)
    by reflexivity.
  assert (S : forallb (fun kv => strippable (snd kv)) account_entries = true)
    by reflexivity.
  split; [exact A|]. split; [exact S|].
  exact (X9_accounts_strips_the_directory (plain_ctx Fmt_table) entered_cli A S).
Defined.

(** What the table formatter gets in that scenario. *)
Example accounts_table :
  written (snd (run_command (plain_ctx Fmt_table) Accounts Demo.good_day)) =
  [EchoTable
     (PyList
        [PyDict [(PyStr "name", PyStr "checking"); (PyStr "account", PyStr "DE01");
                 (PyStr "type", PyStr "account")];
         PyDict [(PyStr "name", PyStr "savings"); (PyStr "account", PyStr "DE02");
                 (PyStr "type", PyStr "account")]])].
Proof. vm_compute. reflexivity. Qed.

(** X11 on the accounts of the scripted portal, by name, and on the
    sparse directory, by [details]. *)
Lemma X11_witness :
  (forallb (has_key "name") (List.map snd account_entries) = true /\
   filter_accounts "name" "savings" (List.map snd account_entries) =
     Return (List.filter (field_is "name" "savings") (List.map snd account_entries))) /\
  (forallb (has_key "details")
     [Demo.account "checking" "DE01";
      PyDict [(PyStr "name", PyStr "card"); (PyStr "type", PyStr "creditcard")]] = false /\
   exists e,
     filter_accounts "details" "/details/DE01"
       [Demo.account "checking" "DE01";
        PyDict [(PyStr "name", PyStr "card"); (PyStr "type", PyStr "creditcard")]] =
       Raise e /\
     is_DKBRoboError e = false).
Proof.
  split.
  - split; [reflexivity|].
    exact (proj1 (X11_account_lookup "name" "savings" (List.map snd account_entries))
             eq_refl).
  - split; [reflexivity|].
    exact (proj2 (X11_account_lookup "details" "/details/DE01"
                    [Demo.account "checking" "DE01";
                     PyDict [(PyStr "name", PyStr "card");
                             (PyStr "type", PyStr "creditcard")]])
             eq_refl).
Defined.

(** X12 on a name no account has. *)
Lemma X12_witness :
  account_dic (self (dkb entered_cli)) = PyDict account_entries /\
  filter_accounts "name" "nope" (List.map snd account_entries) = Return [] /\
  transactions_body (plain_ctx Fmt_json) "name" "nope" (Some "nope") None (PyStr "booked")
    (PyStr "01.01.2024") (PyStr "01.03.2024") entered_cli =
    (library (EchoErr ("No account found matching '" ++
                       name_or_account (Some "nope") None ++ "'")),
     mk_cli (dkb entered_cli)
       (written entered_cli ++
        [EchoErr ("No account found matching '" ++
                  name_or_account (Some "nope") None ++ "'")])).
Proof.
  assert (A : account_dic (self (dkb entered_cli)) = PyDict account_entries)
    by reflexivity.
  assert (F : filter_accounts "name" "nope" (List.map snd account_entries) = Return [])
    by reflexivity.
  split; [exact A|]. split; [exact F|].
  exact (X12_no_matching_account (plain_ctx Fmt_json) "name" "nope" (Some "nope") None
           (PyStr "booked") (PyStr "01.01.2024") (PyStr "01.03.2024") entered_cli A F).
Defined.

(** X13 on the account number of the savings account. *)
Lemma X13_witness :
  account_dic (self (dkb entered_cli)) = PyDict account_entries /\
  filter_accounts "account" "DE02" (List.map snd account_entries) =
    Return [Demo.account "savings" "DE02"] /\
  py_getitem_str (Demo.account "savings" "DE02") "transactions" = Return (PyStr "/tx/DE02") /\
  py_getitem_str (Demo.account "savings" "DE02") "type" = Return (PyStr "account") /\
  transactions_body (plain_ctx Fmt_json) "account" "DE02" None (Some "DE02") (PyStr "booked")
    (PyStr "01.01.2024") (PyStr "01.03.2024") entered_cli =
    match get_transactions (PyStr "/tx/DE02") (PyStr "account") (PyStr "01.01.2024")
            (PyStr "01.03.2024") (PyStr "booked") (dkb entered_cli) with
    | (Return l, s) => run_format (FORMAT (plain_ctx Fmt_json)) l (mk_cli s (written entered_cli))
    | (Raise e, s) => (Raise e, mk_cli s (written entered_cli))
    end.
Proof.
  assert (A : account_dic (self (dkb entered_cli)) = PyDict account_entries)
    by reflexivity.
  assert (F : filter_accounts "account" "DE02" (List.map snd account_entries) =
              Return [Demo.account "savings" "DE02"]) by reflexivity.
  assert (U : py_getitem_str (Demo.account "savings" "DE02") "transactions" =
              Return (PyStr "/tx/DE02")) by reflexivity.
  assert (T : py_getitem_str (Demo.account "savings" "DE02") "type" =
              Return (PyStr "account")) by reflexivity.
  split; [exact A|]. split; [exact F|]. split; [exact U|]. split; [exact T|].
  exact (X13_first_match_is_fetched (plain_ctx Fmt_json) "account" "DE02" None (Some "DE02")
           (PyStr "booked") (PyStr "01.01.2024") (PyStr "01.03.2024") entered_cli A F U T).
Defined.

(** X14 on an empty list, and on a list of strings. *)
Lemma X14_witness :
  (py_len (PyList []) = Return (PyInt 0) /\
   run_format Fmt_csv (PyList []) entered_cli = (Return tt, entered_cli)) /\
  (py_keys (PyStr "DE01") = Raise (AttributeError "object has no attribute 'keys'") /\
   run_format Fmt_csv (PyList [PyStr "DE01"; PyStr "DE02"]) entered_cli =
     (Raise (AttributeError "object has no attribute 'keys'"), entered_cli)).
Proof.
  split.
  - split; [reflexivity|].
    exact (proj1 (X14_csv_header_comes_from_the_first_record entered_cli) (PyList [])
             eq_refl).
  - split; [reflexivity|].
    exact (proj2 (proj2 (X14_csv_header_comes_from_the_first_record entered_cli))
             (PyStr "DE01") [PyStr "DE02"] _ eq_refl).
Defined.

End MoreScenarios.

Section OddWrappers.

#[local] Existing Instance Demo.utilities.
#[local] Existing Instance DemoCli.console.

Import DemoCli.

(** X3 on wrappers whose [get_transactions] returns [None]. *)
Lemma X3_witness :
  logger (self entered_without_transactions) = Some false /\
  wrapper (self entered_without_transactions) = Some Demo.api_wrapper /\
  validate_dates (Some false) (PyStr "01.01.2024") (PyStr "01.03.2024") 3
    (legacy_login (self entered_without_transactions)) =
    Return (PyTuple [PyStr "01.01.2024"; PyStr "01.03.2024"]) /\
  unpack2 (PyTuple [PyStr "01.01.2024"; PyStr "01.03.2024"]) =
    Return (PyStr "01.01.2024", PyStr "01.03.2024") /\
  invoke (Capability:=no_transactions) Demo.api_wrapper
    (M_get_transactions (PyStr "/tx/DE01") (PyStr "account") (PyStr "01.01.2024")
       (PyStr "01.03.2024") (PyStr "booked"))
    (portal entered_without_transactions) = (Return PyNone, Demo.good_day) /\
  fst (get_transactions (Cap:=no_transactions) (PyStr "/tx/DE01") (PyStr "account")
         (PyStr "01.01.2024") (PyStr "01.03.2024") (PyStr "booked")
         entered_without_transactions) =
    match py_len PyNone with
    | Return _ => Return PyNone
    | Raise e => Raise e
    end /\
  portal (snd (get_transactions (Cap:=no_transactions) (PyStr "/tx/DE01") (PyStr "account")
                 (PyStr "01.01.2024") (PyStr "01.03.2024") (PyStr "booked")
                 entered_without_transactions)) = Demo.good_day /\
  wrapper_calls
    (new_calls entered_without_transactions
       (snd (get_transactions (Cap:=no_transactions) (PyStr "/tx/DE01") (PyStr "account")
               (PyStr "01.01.2024") (PyStr "01.03.2024") (PyStr "booked")
               entered_without_transactions))) =
    [EvCall Demo.api_wrapper
       (M_get_transactions (PyStr "/tx/DE01") (PyStr "account") (PyStr "01.01.2024")
          (PyStr "01.03.2024") (PyStr "booked"))].
Proof.
  assert (L : logger (self entered_without_transactions) = Some false) by reflexivity.
  assert (W : wrapper (self entered_without_transactions) = Some Demo.api_wrapper)
    by reflexivity.
  assert (V : validate_dates (Some false) (PyStr "01.01.2024") (PyStr "01.03.2024") 3
                (legacy_login (self entered_without_transactions)) =
              Return (PyTuple [PyStr "01.01.2024"; PyStr "01.03.2024"])) by reflexivity.
  assert (U : unpack2 (PyTuple [PyStr "01.01.2024"; PyStr "01.03.2024"]) =
              Return (PyStr "01.01.2024", PyStr "01.03.2024")) by reflexivity.
  assert (I : invoke (Capability:=no_transactions) Demo.api_wrapper
                (M_get_transactions (PyStr "/tx/DE01") (PyStr "account") (PyStr "01.01.2024")
                   (PyStr "01.03.2024") (PyStr "booked"))
                (portal entered_without_transactions) = (Return PyNone, Demo.good_day))
    by reflexivity.
  split; [exact L|]. split; [exact W|]. split; [exact V|]. split; [exact U|].
  split; [exact I|].
  exact (@X3_transactions_need_a_length _ _ _ no_transactions entered_without_transactions
           false Demo.api_wrapper (PyStr "/tx/DE01") (PyStr "account") (PyStr "01.01.2024")
           (PyStr "01.03.2024") (PyStr "booked")
           (PyTuple [PyStr "01.01.2024"; PyStr "01.03.2024"])
           (PyStr "01.01.2024") (PyStr "01.03.2024") PyNone Demo.good_day L W V U I).
Defined.

(** X4 on wrappers whose [login] returns three items. *)
Lemma X4_witness :
  new_calls (Demo.api_user Demo.good_day)
    (snd (__enter__ (Cap:=three_items) (Demo.api_user Demo.good_day))) =
    [EvCall Demo.api_wrapper M_init; EvCall Demo.api_wrapper M_login] /\
  fst (invoke (Capability:=three_items) Demo.api_wrapper M_login
         (snd (invoke (Capability:=three_items) Demo.api_wrapper M_init
                 (portal (Demo.api_user Demo.good_day))))) =
    Return (PyTuple [Demo.accounts; PyStr "01.01.2024, 08:00"; PyStr "extra"]) /\
  unpack2 (PyTuple [Demo.accounts; PyStr "01.01.2024, 08:00"; PyStr "extra"]) =
    Raise (ValueError "too many values to unpack (expected 2)") /\
  fst (__enter__ (Cap:=three_items) (Demo.api_user Demo.good_day)) =
    Raise (ValueError "too many values to unpack (expected 2)") /\
  wrapper (self (snd (__enter__ (Cap:=three_items) (Demo.api_user Demo.good_day)))) =
    Some Demo.api_wrapper /\
  account_dic (self (snd (__enter__ (Cap:=three_items) (Demo.api_user Demo.good_day)))) =
    account_dic (self (Demo.api_user Demo.good_day)) /\
  last_login (self (snd (__enter__ (Cap:=three_items) (Demo.api_user Demo.good_day)))) =
    last_login (self (Demo.api_user Demo.good_day)) /\
  fst (with_ (Cap:=three_items) (ret tt) (Demo.api_user Demo.good_day)) =
    Raise (ValueError "too many values to unpack (expected 2)") /\
  List.filter is_logout_of
    (new_calls (Demo.api_user Demo.good_day)
       (snd (with_ (Cap:=three_items) (ret tt) (Demo.api_user Demo.good_day)))) = [].
Proof.
  assert (N : new_calls (Demo.api_user Demo.good_day)
                (snd (__enter__ (Cap:=three_items) (Demo.api_user Demo.good_day))) =
              [EvCall Demo.api_wrapper M_init; EvCall Demo.api_wrapper M_login])
    by reflexivity.
  assert (I : fst (invoke (Capability:=three_items) Demo.api_wrapper M_login
                     (snd (invoke (Capability:=three_items) Demo.api_wrapper M_init
                             (portal (Demo.api_user Demo.good_day))))) =
              Return (PyTuple [Demo.accounts; PyStr "01.01.2024, 08:00"; PyStr "extra"]))
    by reflexivity.
  assert (U : unpack2 (PyTuple [Demo.accounts; PyStr "01.01.2024, 08:00"; PyStr "extra"]) =
              Raise (ValueError "too many values to unpack (expected 2)")) by reflexivity.
  split; [exact N|]. split; [exact I|]. split; [exact U|].
  exact (@X4_login_result_must_be_a_pair _ _ three_items (Demo.api_user Demo.good_day)
           Demo.api_wrapper _ _ (ret tt) N I U).
Defined.


End OddWrappers.

Section LastScenarios.

#[local] Existing Instance Demo.utilities.
#[local] Existing Instance DemoCli.console.

Import DemoCli.

(** X15 on the one limit of the scripted portal, and on wrappers that
    return [None] for the limits. *)
Lemma X15_witness :
  (fst (get_credit_limits (Cap:=Demo.capability) (dkb entered_cli)) =
     Return (PyDict [(PyStr "DE01", PyInt 1000)]) /\
   FORMAT (plain_ctx Fmt_csv) = Fmt_csv /\
   written (snd (credit_limits_body (Cap:=Demo.capability) (plain_ctx Fmt_csv) entered_cli)) =
     (written entered_cli ++
      match [(PyStr "DE01", PyInt 1000)] with
      | [] => []
      | _ :: _ =>
          CsvHeader [PyStr "account"; PyStr "limit"] ::
          match library (CsvHeader [PyStr "account"; PyStr "limit"]) with
          | Return _ => [CsvRows (PyList (limit_rows [(PyStr "DE01", PyInt 1000)]))]
          | Raise _ => []
          end
      end)%list) /\
  (fst (get_credit_limits (Cap:=no_transactions)
          (dkb (mk_cli entered_without_transactions []))) = Return PyNone /\
   py_items PyNone = Raise (AttributeError "object has no attribute 'items'") /\
   credit_limits_body (Cap:=no_transactions) (plain_ctx Fmt_json)
     (mk_cli entered_without_transactions []) =
     (Raise (AttributeError "object has no attribute 'items'"),
      mk_cli (snd (get_credit_limits (Cap:=no_transactions)
                     (dkb (mk_cli entered_without_transactions []))))
             (written (mk_cli entered_without_transactions [])))).
Proof.
  assert (G : fst (get_credit_limits (Cap:=Demo.capability) (dkb entered_cli)) =
              Return (PyDict [(PyStr "DE01", PyInt 1000)])) by reflexivity.
  assert (G' : fst (get_credit_limits (Cap:=no_transactions)
                      (dkb (mk_cli entered_without_transactions []))) = Return PyNone)
    by reflexivity.
  split.
  - split; [exact G|]. split; [reflexivity|].
    exact (proj1 (X15_credit_limits_as_csv (Cap:=Demo.capability) (plain_ctx Fmt_csv)
                    entered_cli G) _ eq_refl eq_refl).
  - split; [exact G'|]. split; [reflexivity|].
    exact (proj2 (X15_credit_limits_as_csv (Cap:=no_transactions) (plain_ctx Fmt_json)
                    (mk_cli entered_without_transactions []) G') _ eq_refl).
Defined.

(** X16 in an API session on the scripted portal. *)
Lemma X16_witness :
  logger (self (dkb entered_cli)) = Some false /\
  wrapper (self (dkb entered_cli)) = Some Demo.api_wrapper /\
  wrapper_calls
    (new_calls (dkb entered_cli)
       (dkb (snd (accounts_body (plain_ctx Fmt_json) entered_cli)))) = [] /\
  wrapper_calls
    (new_calls (dkb entered_cli)
       (dkb (snd (last_login_body (plain_ctx Fmt_json) entered_cli)))) = [] /\
  wrapper_calls
    (new_calls (dkb entered_cli)
       (dkb (snd (credit_limits_body (Cap:=Demo.capability) (plain_ctx Fmt_json)
                    entered_cli)))) =
    [EvCall Demo.api_wrapper M_get_credit_limits] /\
  wrapper_calls
    (new_calls (dkb entered_cli)
       (dkb (snd (standing_orders_body (Cap:=Demo.capability) (plain_ctx Fmt_json)
                    entered_cli)))) =
    [EvCall Demo.api_wrapper (M_get_standing_orders PyNone)].
Proof.
  assert (L : logger (self (dkb entered_cli)) = Some false) by reflexivity.
  assert (W : wrapper (self (dkb entered_cli)) = Some Demo.api_wrapper) by reflexivity.
  split; [exact L|]. split; [exact W|].
  exact (X16_round_trips_of_the_commands (Cap:=Demo.capability) (plain_ctx Fmt_json)
           entered_cli L W).
Defined.

(** X17 on a session that is left, entered again, read from and left
    twice: three exits, three logouts. *)
Lemma X17_witness :
  wrapper (self entered) <> None /\
  List.length
    (List.filter is_logout_of
       (new_calls entered
          (run_ops (Cap:=Demo.capability) [Exit []; Enter; Op Get_points; Exit []; Exit []]
             entered))) =
  List.length (List.filter is_exit [Exit []; Enter; Op Get_points; Exit []; Exit []]).
Proof.
  assert (W : wrapper (self entered) <> None) by (vm_compute; discriminate).
  split; [exact W|].
  exact (X17_one_logout_per_exit (Cap:=Demo.capability) entered
           [Exit []; Enter; Op Get_points; Exit []; Exit []] W).
Defined.

End LastScenarios.
